(** * PDF-Annotator: the pointer-driven annotation state machine of [src/App.tsx]

    A shallow embedding of the geometry helpers, of the field store kept in
    the [fields] hook and of the three pointer listeners of the [App]
    component, then of what [BoxElement] and the page render and of the
    navigation controls, followed by the properties established about them.

    Modelling conventions.
    - A JavaScript [number] that holds a coordinate, an area or a page
      number is an integer of [Z]; nothing below depends on rounding.
    - The React hooks [firstPoint], [secondPoint], [pageNumber] and [fields]
      are the fields of one record, [AppState].  A listener is a function
      from the state it closes over (the one of the latest render) and the
      event to the state after the setters it calls have been applied.
    - [uuid()] is an external generator: the identifier it would return for
      a call is an argument of the listener that calls it.
    - [container.getBoundingClientRect()] is read at each event, so the
      container (with the rectangle it reports at that instant) is an
      argument of the listeners too. *)

From Stdlib Require Import ZArith List String Bool Lia.
Import ListNotations.
Open Scope Z_scope.

(** ** Data model (App.tsx, lines 9-12 and 89) *)

Record Point : Set := mkPoint { x : Z; y : Z }.

Record Box : Set := mkBox { a : Point; b : Point }.

(** [Field & { selected: boolean }], the element type of the [fields] hook. *)
Record Field : Set := mkField {
  page : Z;
  box : Box;
  id : string;
  selected : bool
}.

(** ** The DOM values the listeners read *)

(** An event target; only its class list is inspected (line 109). *)
Record HTMLElement : Set := mkElement { classList : list string }.

(** [classList.contains(token)]. *)
Definition contains (classes : list string) (token : string) : bool :=
  existsb (String.eqb token) classes.

(** A [MouseEvent]: [target] is [EventTarget | null]. *)
Record MouseEvent : Set := mkMouseEvent {
  target : option HTMLElement;
  clientX : Z;
  clientY : Z
}.

(** The [DOMRect] of [getBoundingClientRect()]; only [left] and [top] are used. *)
Record DOMRect : Set := mkRect { left : Z; top : Z }.

Record HTMLDivElement : Set := mkDiv { getBoundingClientRect : DOMRect }.

(** ** Geometry (App.tsx, lines 14-27) *)

Definition size (bx : Box) : Z :=
  let width := Z.abs (x (a bx) - x (b bx)) in
  let height := Z.abs (y (a bx) - y (b bx)) in
  width * height.

Definition tooSmall (bx : Box) : bool := size bx <? 200.

(** Declared [Point | null]; the body always returns a point. *)
Definition mousePositionWithinContainer (ev : MouseEvent) (container : HTMLDivElement)
  : option Point :=
  let pageBoundingBox := getBoundingClientRect container in
  let offsetX := clientX ev - left pageBoundingBox in
  let offsetY := clientY ev - top pageBoundingBox in
  Some {| x := offsetX; y := offsetY |}.

(** The two corner swaps under which the area is compared. *)
Definition swapCorners (bx : Box) : Box := {| a := b bx; b := a bx |}.

Definition swapAxesPoint (p : Point) : Point := {| x := y p; y := x p |}.

Definition swapAxes (bx : Box) : Box :=
  {| a := swapAxesPoint (a bx); b := swapAxesPoint (b bx) |}.

(** ** The field store: the updaters handed to [setFields] *)

(** [{ ...prevField, selected: v }]. *)
Definition withSelected (v : bool) (f : Field) : Field :=
  {| page := page f; box := box f; id := id f; selected := v |}.

(** Lines 98-106: [[...prevFields, { page, id, box, selected: false }]]. *)
Definition appendField (pg : Z) (uid : string) (bx : Box) (prevFields : list Field)
  : list Field :=
  prevFields ++ [ {| page := pg; box := bx; id := uid; selected := false |} ].

(** Lines 110 and 133: every field mapped to [selected: false]. *)
Definition deselectAll (prevFields : list Field) : list Field :=
  map (withSelected false) prevFields.

(** Lines 181-184, [onClick] of a rendered field:
    [selected: prevField.id === field.id]. *)
Definition selectOnly (fid : string) (prevFields : list Field) : list Field :=
  map (fun prevField => withSelected (String.eqb (id prevField) fid) prevField) prevFields.

(** Lines 185-187, [deleteSelf]: [prevFields.filter(p => p.id !== field.id)]. *)
Definition removeField (fid : string) (prevFields : list Field) : list Field :=
  filter (fun prevField => negb (String.eqb (id prevField) fid)) prevFields.

(** Lines 90-92: [typeof fields.find(f => f.selected) !== 'undefined']. *)
Definition hasSelectedField (fs : list Field) : bool :=
  match find selected fs with
  | Some _ => true
  | None => false
  end.

(** Line 175: the fields rendered for a page. *)
Definition fieldsOnPage (pg : Z) (fs : list Field) : list Field :=
  filter (fun field => page field =? pg) fs.

(** ** The hooks of [App] (lines 82-89) *)

Record AppState : Set := mkState {
  pageNumber : Z;
  firstPoint : option Point;
  secondPoint : option Point;
  fields : list Field
}.

Definition setFirstPoint (p : option Point) (st : AppState) : AppState :=
  {| pageNumber := pageNumber st; firstPoint := p;
     secondPoint := secondPoint st; fields := fields st |}.

Definition setSecondPoint (p : option Point) (st : AppState) : AppState :=
  {| pageNumber := pageNumber st; firstPoint := firstPoint st;
     secondPoint := p; fields := fields st |}.

Definition setFields (upd : list Field -> list Field) (st : AppState) : AppState :=
  {| pageNumber := pageNumber st; firstPoint := firstPoint st;
     secondPoint := secondPoint st; fields := upd (fields st) |}.

(** ** The listeners (lines 94-135) *)

(** [commitNewZone], the [mouseup] listener.  Both [return]s leave before the
    two setters of lines 113-114. *)
Definition commitNewZone (uuid : string) (st : AppState) (ev : MouseEvent) : AppState :=
  match secondPoint st, firstPoint st with
  | Some sp, Some fp =>
      let candidate := {| a := fp; b := sp |} in
      if negb (tooSmall candidate) then
        setSecondPoint None (setFirstPoint None
          (setFields (appendField (pageNumber st) uuid candidate) st))
      else if hasSelectedField (fields st) then
        match target ev with
        | None => st
        | Some el =>
            if negb (contains (classList el) "sb") then
              setSecondPoint None (setFirstPoint None (setFields deselectAll st))
            else
              setSecondPoint None (setFirstPoint None st)
        end
      else
        setSecondPoint None (setFirstPoint None st)
  | _, _ => st
  end.

(** [mouseDownListener]; [ev.preventDefault()] touches no hook. *)
Definition mouseDownListener (pageRef : HTMLDivElement) (st : AppState) (ev : MouseEvent)
  : AppState :=
  match target ev, firstPoint st with
  | Some _, None => setFirstPoint (mousePositionWithinContainer ev pageRef) st
  | _, _ => st
  end.

(** [mouseMoveListener]; [firstPoint && hasSelectedField] tests the values of
    the render the listener closes over. *)
Definition mouseMoveListener (pageRef : HTMLDivElement) (st : AppState) (ev : MouseEvent)
  : AppState :=
  match target ev with
  | None => st
  | Some _ =>
      let moved := setSecondPoint (mousePositionWithinContainer ev pageRef) st in
      match firstPoint st with
      | Some _ =>
          if hasSelectedField (fields st) then setFields deselectAll moved else moved
      | None => moved
      end
  end.

(** A run of [mousemove] events, oldest first. *)
Definition mouseMoves (pageRef : HTMLDivElement) (st : AppState) (evs : list MouseEvent)
  : AppState :=
  fold_left (mouseMoveListener pageRef) evs st.

(** ** Store states and what is observed of them *)

(** The stores built from the empty one by the four updaters; [uuid()] never
    returns an identifier already in the store. *)
Inductive reachable : list Field -> Prop :=
| reach_empty : reachable []
| reach_append pg uid bx fs :
    reachable fs -> ~ In uid (map id fs) -> reachable (appendField pg uid bx fs)
| reach_select fid fs : reachable fs -> reachable (selectOnly fid fs)
| reach_deselect fs : reachable fs -> reachable (deselectAll fs)
| reach_remove fid fs : reachable fs -> reachable (removeField fid fs).

(** How many fields carry [selected = true]. *)
Definition selectedCount (fs : list Field) : nat :=
  List.length (filter selected fs).

(** A field without its flag: page, identifier and box. *)
Definition identity (f : Field) : Z * string * Box := (page f, id f, box f).

(** The invariant carried along [reachable]: identifiers are pairwise
    distinct and at most one flag is set. *)
Definition storeInv (fs : list Field) : Prop :=
  NoDup (map id fs) /\ (selectedCount fs <= 1)%nat.

(** ** Rendering: [BoxElement] (App.tsx, lines 29-78) *)

(** What a click handler does: the updater it hands to [setFields]. *)
Definition Updater : Type := list Field -> list Field.

(** [BoxProps] once [defaultProps] have been applied: an absent [selected] is
    [false], an absent handler is [undefined]. *)
Record BoxProps : Type := mkBoxProps {
  propsBox : Box;
  propsSelected : bool;
  propsOnClick : option Updater;
  propsDeleteSelf : option Updater
}.

(** The second [div] of lines 57-69, [className="sb sb-left"]. *)
Record DeleteView : Type := mkDeleteView {
  deleteLeft : Z;
  deleteTop : Z;
  deleteElement : HTMLElement;
  deleteOnClick : Updater
}.

(** The fragment [BoxElement] returns: the styled [div] of lines 38-55 and,
    when there is one, the delete control. *)
Record BoxView : Type := mkBoxView {
  viewLeft : Z;
  viewTop : Z;
  viewWidth : Z;
  viewHeight : Z;
  backgroundColor : string;
  label : string;
  viewOnClick : option Updater;
  deleteView : option DeleteView
}.

Definition BoxElement (props : BoxProps) : BoxView :=
  let bx := propsBox props in
  {| viewLeft := Z.min (x (a bx)) (x (b bx));
     viewTop := Z.min (y (a bx)) (y (b bx));
     viewWidth := Z.abs (x (a bx) - x (b bx));
     viewHeight := Z.abs (y (a bx) - y (b bx));
     backgroundColor :=
       if propsSelected props then "rgba(255, 0, 0, 0.5)" else "rgba(255, 255, 0, 0.5)";
     label := if size bx >? 5000 then "Patient Signature" else "PS";
     viewOnClick := propsOnClick props;
     deleteView :=
       match propsSelected props, propsDeleteSelf props with
       | true, Some del =>
           Some {| deleteLeft :=
                     Z.min (x (a bx)) (x (b bx)) + Z.abs (x (a bx) - x (b bx)) + 11;
                   deleteTop := Z.min (y (a bx)) (y (b bx));
                   deleteElement := {| classList := ["sb"%string; "sb-left"%string] |};
                   deleteOnClick := del |}
       | _, _ => None
       end |}.

(** ** Rendering: the children of [Page] (App.tsx, lines 168-190) *)

(** Lines 168-172: the box being drawn, with the default props. *)
Definition previewBox (st : AppState) : list BoxView :=
  match firstPoint st, secondPoint st with
  | Some fp, Some sp =>
      if negb (tooSmall {| a := fp; b := sp |}) then
        [ BoxElement {| propsBox := {| a := fp; b := sp |};
                        propsSelected := false;
                        propsOnClick := None;
                        propsDeleteSelf := None |} ]
      else []
  | _, _ => []
  end.

(** Lines 177-188: the element of one committed field. *)
Definition fieldElement (field : Field) : BoxView :=
  BoxElement {| propsBox := box field;
                propsSelected := selected field;
                propsOnClick := Some (selectOnly (id field));
                propsDeleteSelf := Some (removeField (id field)) |}.

Definition pageChildren (st : AppState) : list BoxView :=
  previewBox st ++ map fieldElement (fieldsOnPage (pageNumber st) (fields st)).

(** ** Page navigation (App.tsx, lines 193-217) *)

Definition setPageNumber (upd : Z -> Z) (st : AppState) : AppState :=
  {| pageNumber := upd (pageNumber st); firstPoint := firstPoint st;
     secondPoint := secondPoint st; fields := fields st |}.

(** Line 197: [setPageNumber(1)]. *)
Definition firstPage (prev : Z) : Z := 1.

(** Line 202: [prev === 1 ? 1 : prev - 1]. *)
Definition previousPage (prev : Z) : Z := if prev =? 1 then 1 else prev - 1.

(** Line 210: [prev === numPages ? prev : prev + 1]; [numPages] is
    [undefined] until the document has loaded, and no number equals it. *)
Definition nextPage (numPages : option Z) (prev : Z) : Z :=
  match numPages with
  | Some n => if prev =? n then prev else prev + 1
  | None => prev + 1
  end.

(** Line 215: [setPageNumber(pageNumber)], the page of the current render. *)
Definition lastPage (prev : Z) : Z := prev.

(** ** The session as a machine *)

(** What can happen to a session: the three listeners of lines 137-139, the
    two handlers of a rendered field and the four navigation controls. *)
Inductive Action : Type :=
| MouseDown (pageRef : HTMLDivElement) (ev : MouseEvent)
| MouseMove (pageRef : HTMLDivElement) (ev : MouseEvent)
| MouseUp (uuid : string) (ev : MouseEvent)
| ClickField (fid : string)
| ClickDelete (fid : string)
| ToFirstPage
| ToPreviousPage
| ToNextPage
| ToLastPage.

(** [numPages] is the page count of the loaded document, or [None] before
    [onLoadSuccess]. *)
Definition step (numPages : option Z) (st : AppState) (act : Action) : AppState :=
  match act with
  | MouseDown pageRef ev => mouseDownListener pageRef st ev
  | MouseMove pageRef ev => mouseMoveListener pageRef st ev
  | MouseUp uuid ev => commitNewZone uuid st ev
  | ClickField fid => setFields (selectOnly fid) st
  | ClickDelete fid => setFields (removeField fid) st
  | ToFirstPage => setPageNumber firstPage st
  | ToPreviousPage => setPageNumber previousPage st
  | ToNextPage => setPageNumber (nextPage numPages) st
  | ToLastPage => setPageNumber lastPage st
  end.

(** The hooks at mount (lines 82-89). *)
Definition initialState : AppState :=
  {| pageNumber := 1; firstPoint := None; secondPoint := None; fields := [] |}.

(** [uuid()] never returns an identifier already in the store. *)
Definition freshFor (st : AppState) (act : Action) : Prop :=
  match act with
  | MouseUp uuid _ => ~ In uuid (map id (fields st))
  | _ => True
  end.

(** The states a session can be in. *)
Inductive reachableApp (numPages : option Z) : AppState -> Prop :=
| app_initial : reachableApp numPages initialState
| app_step st act :
    reachableApp numPages st -> freshFor st act ->
    reachableApp numPages (step numPages st act).

(** A press or a move, the events that never end a gesture. *)
Definition keepsGesture (act : Action) : bool :=
  match act with
  | MouseDown _ _ | MouseMove _ _ => true
  | _ => false
  end.

(** How many of the rendered boxes show a delete control. *)
Definition deleteControls (views : list BoxView) : nat :=
  List.length (filter (fun v => match deleteView v with Some _ => true | None => false end)
                 views).

(** ** Sample values for the worked examples *)

(** An element of the page, outside any delete control. *)
Definition canvas : HTMLElement := {| classList := ["react-pdf__Page__canvas"%string] |}.

(** The delete control of line 58, [className="sb sb-left"]. *)
Definition deleteControl : HTMLElement := {| classList := ["sb"%string; "sb-left"%string] |}.

(** A container whose rectangle starts at the screen origin. *)
Definition pageDiv : HTMLDivElement :=
  {| getBoundingClientRect := {| left := 0; top := 0 |} |}.

Definition eventAt (tgt : option HTMLElement) (cx cy : Z) : MouseEvent :=
  {| target := tgt; clientX := cx; clientY := cy |}.

Definition origin : Point := {| x := 0; y := 0 |}.

(** Area 2500. *)
Definition boxLarge : Box := {| a := origin; b := {| x := 50; y := 50 |} |}.

(** Area 25. *)
Definition boxSmall : Box := {| a := origin; b := {| x := 5; y := 5 |} |}.

(** Areas 200, 201 and 199. *)
Definition box200 : Box := {| a := origin; b := {| x := 10; y := 20 |} |}.
Definition box201 : Box := {| a := {| x := 70; y := 3 |}; b := {| x := 3; y := 0 |} |}.
Definition box199 : Box := {| a := {| x := 0; y := 199 |}; b := {| x := 1; y := 0 |} |}.

Definition fieldA : Field := {| page := 1; box := boxLarge; id := "A"; selected := true |}.
Definition fieldB : Field := {| page := 2; box := boxLarge; id := "B"; selected := false |}.

(** Two fields on two pages, the first one selected. *)
Definition storeAB : list Field := [fieldA; fieldB].

(** No gesture in progress. *)
Definition idleState : AppState :=
  {| pageNumber := 2; firstPoint := None; secondPoint := None; fields := storeAB |}.

(** Pressed at the origin, no move seen since the last release. *)
Definition pressedState : AppState :=
  {| pageNumber := 2; firstPoint := Some origin; secondPoint := None; fields := storeAB |}.

(** A drag from the origin to (5,5). *)
Definition smallDrag : AppState :=
  {| pageNumber := 2; firstPoint := Some origin;
     secondPoint := Some {| x := 5; y := 5 |}; fields := storeAB |}.

(** A drag from the origin to (50,50). *)
Definition largeDrag : AppState :=
  {| pageNumber := 2; firstPoint := Some origin;
     secondPoint := Some {| x := 50; y := 50 |}; fields := storeAB |}.

(** A fresh session on page 1. *)
Definition emptyState : AppState :=
  {| pageNumber := 1; firstPoint := None; secondPoint := None; fields := [] |}.

(** The field of a drag from (0,0) to (50,50) on page 1, once clicked. *)
Definition fieldC : Field := {| page := 1; box := boxLarge; id := "C"; selected := true |}.

(** The session after that drag and that click. *)
Definition clickedState : AppState :=
  {| pageNumber := 1; firstPoint := None; secondPoint := None; fields := [fieldC] |}.

(** The delete control rendered for [fieldC]. *)
Definition deleteC : DeleteView :=
  {| deleteLeft := 61; deleteTop := 0; deleteElement := deleteControl;
     deleteOnClick := removeField "C" |}.

(** A fresh session after a press at (0,0) and a move to (50,50). *)
Definition specDrag : AppState :=
  mouseMoveListener pageDiv
    (mouseDownListener pageDiv emptyState (eventAt (Some canvas) 0 0))
    (eventAt (Some canvas) 50 50).

(** * Properties *)

(** ** Geometry *)

Section Geometry.

Lemma tooSmall_spec (bx : Box) : tooSmall bx = true <-> size bx < 200.
Proof. unfold tooSmall. apply Z.ltb_lt. Qed.

Lemma tooSmall_false (bx : Box) : tooSmall bx = false <-> 200 <= size bx.
Proof. unfold tooSmall. apply Z.ltb_ge. Qed.

End Geometry.

(** C9.  The area of a box is [|a.x - b.x| * |a.y - b.y|]; it does not change
    when the two corners are exchanged, nor when the x and y coordinates of
    both corners are exchanged. *)
Theorem size_formula_and_symmetries (bx : Box) :
  size bx = Z.abs (x (a bx) - x (b bx)) * Z.abs (y (a bx) - y (b bx))
  /\ size (swapCorners bx) = size bx
  /\ size (swapAxes bx) = size bx.
Proof.
  destruct bx as [[ax ay] [bx' by']].
  unfold size, swapCorners, swapAxes, swapAxesPoint; cbn.
  repeat split.
  - rewrite <- (Z.abs_opp (ax - bx')), <- (Z.abs_opp (ay - by')).
    f_equal; f_equal; lia.
  - apply Z.mul_comm.
Qed.

(** C3, as the code has it.  The degeneracy test is the strict comparison
    [size(box) < 200]: a box of area exactly 200 is not degenerate, nor is a
    box of area 201; a box of area 199 is. *)
Theorem tooSmall_boundary (bx : Box) :
  (size bx = 200 -> tooSmall bx = false)
  /\ (size bx = 201 -> tooSmall bx = false)
  /\ (size bx = 199 -> tooSmall bx = true).
Proof.
  unfold tooSmall.
  repeat split; intros ->; reflexivity.
Qed.

Lemma tooSmall_boundary_witness :
  (size box200 = 200 /\ tooSmall box200 = false)
  /\ (size box201 = 201 /\ tooSmall box201 = false)
  /\ (size box199 = 199 /\ tooSmall box199 = true).
Proof.
  split; [ | split ]; (split; [ reflexivity | ]).
  - apply (proj1 (tooSmall_boundary _)); reflexivity.
  - apply (proj1 (proj2 (tooSmall_boundary _))); reflexivity.
  - apply (proj2 (proj2 (tooSmall_boundary _))); reflexivity.
Defined.

(** C3, as stated, fails: the box with corners (0,0) and (10,20) has area
    exactly 200 and the test does not class it as degenerate. *)
Lemma tooSmall_area_200_counterexample :
  size box200 = 200 /\ tooSmall box200 <> true.
Proof.
  split; [reflexivity | vm_compute; discriminate].
Qed.

(** ** The field store *)

Section Store.

Implicit Types (fs : list Field) (f g : Field) (fid uid : string).

Lemma identity_deselectAll fs : map identity (deselectAll fs) = map identity fs.
Proof.
  unfold deselectAll. rewrite map_map. apply map_ext. intro f. reflexivity.
Qed.

Lemma identity_selectOnly fid fs : map identity (selectOnly fid fs) = map identity fs.
Proof.
  unfold selectOnly. rewrite map_map. apply map_ext. intro f. reflexivity.
Qed.

Lemma id_of_identity fs fs' :
  map identity fs = map identity fs' -> map id fs = map id fs'.
Proof.
  intro E.
  assert (P : forall l, map id l = map (fun t => snd (fst t)) (map identity l)).
  { intro l. rewrite map_map. apply map_ext. intro f. reflexivity. }
  rewrite (P fs), (P fs'), E. reflexivity.
Qed.

(** What equal [identity] images say, position by position. *)
Lemma identity_pointwise fs fs' :
  map identity fs = map identity fs' ->
  List.length fs = List.length fs'
  /\ forall (i : nat) f f',
       nth_error fs i = Some f -> nth_error fs' i = Some f' ->
       page f = page f' /\ id f = id f' /\ box f = box f'.
Proof.
  intro E. split.
  - rewrite <- (length_map identity fs), E. apply length_map.
  - intros i f f' Hf Hf'.
    apply (map_nth_error identity) in Hf.
    apply (map_nth_error identity) in Hf'.
    rewrite E, Hf' in Hf. unfold identity in Hf.
    injection Hf as -> -> ->. auto.
Qed.

Lemma selectedCount_deselectAll fs : selectedCount (deselectAll fs) = 0%nat.
Proof.
  unfold selectedCount, deselectAll.
  induction fs as [|f fs IH]; [reflexivity | exact IH].
Qed.

Lemma selectedCount_appendField pg uid bx fs :
  selectedCount (appendField pg uid bx fs) = selectedCount fs.
Proof.
  unfold selectedCount, appendField.
  rewrite filter_app, length_app. cbn. apply Nat.add_0_r.
Qed.

Lemma selectedCount_removeField fid fs :
  (selectedCount (removeField fid fs) <= selectedCount fs)%nat.
Proof.
  unfold selectedCount, removeField.
  induction fs as [|f fs IH]; cbn; [lia|].
  destruct (negb (id f =? fid)%string); cbn; destruct (selected f); cbn; lia.
Qed.

(** No field carries [fid]: selecting it deselects everything. *)
Lemma selectedCount_selectOnly_absent fid fs :
  ~ In fid (map id fs) -> selectedCount (selectOnly fid fs) = 0%nat.
Proof.
  unfold selectedCount, selectOnly.
  induction fs as [|f fs IH]; cbn; intro H; [reflexivity|].
  destruct (String.eqb_spec (id f) fid) as [E|N]; [tauto|].
  apply IH. tauto.
Qed.

Lemma selectedCount_selectOnly fid fs :
  NoDup (map id fs) -> (selectedCount (selectOnly fid fs) <= 1)%nat.
Proof.
  induction fs as [|f fs IH]; intro ND; [cbn; lia|].
  cbn in ND. inversion ND as [|? ? Hnotin ND']; subst.
  change (selectedCount (selectOnly fid (f :: fs)))
    with (List.length (filter selected
            (withSelected (id f =? fid)%string f :: selectOnly fid fs))).
  cbn [filter withSelected selected].
  destruct (String.eqb_spec (id f) fid) as [E|N].
  - subst fid. cbn [List.length].
    fold (selectedCount (selectOnly (id f) fs)).
    rewrite selectedCount_selectOnly_absent by assumption. lia.
  - apply IH. assumption.
Qed.

Lemma id_removeField_incl fid fs uid :
  In uid (map id (removeField fid fs)) -> In uid (map id fs).
Proof.
  unfold removeField. rewrite !in_map_iff.
  intros [f [E Hin]]. apply filter_In in Hin. exists f. tauto.
Qed.

Lemma NoDup_id_removeField fid fs :
  NoDup (map id fs) -> NoDup (map id (removeField fid fs)).
Proof.
  induction fs as [|f fs IH]; intro ND; [exact ND|].
  cbn in ND. inversion ND as [|? ? Hnotin ND']; subst.
  unfold removeField. cbn [filter].
  destruct (negb (id f =? fid)%string).
  - cbn [map]. constructor.
    + intro Hin. apply Hnotin. eapply id_removeField_incl. exact Hin.
    + apply IH. assumption.
  - apply IH. assumption.
Qed.

Lemma NoDup_id_appendField pg uid bx fs :
  NoDup (map id fs) -> ~ In uid (map id fs) ->
  NoDup (map id (appendField pg uid bx fs)).
Proof.
  intros ND Hfresh. unfold appendField. rewrite map_app. cbn.
  apply NoDup_app; [assumption | repeat constructor; intros [] |].
  intros k Hk [E|[]]. cbn in E. subst k. contradiction.
Qed.

Lemma reachable_storeInv fs : reachable fs -> storeInv fs.
Proof.
  induction 1 as [|pg uid bx fs R [ND C] Hfresh|fid fs R [ND C]
                  |fs R [ND C]|fid fs R [ND C]]; unfold storeInv.
  - split; [constructor | cbn; lia].
  - split; [now apply NoDup_id_appendField|].
    now rewrite selectedCount_appendField.
  - split.
    + rewrite (id_of_identity _ _ (identity_selectOnly fid fs)). exact ND.
    + now apply selectedCount_selectOnly.
  - split.
    + rewrite (id_of_identity _ _ (identity_deselectAll fs)). exact ND.
    + rewrite selectedCount_deselectAll. lia.
  - split; [now apply NoDup_id_removeField|].
    pose proof (selectedCount_removeField fid fs). lia.
Qed.

(** With distinct identifiers a field is determined by its identifier. *)
Lemma NoDup_id_inj fs f g :
  NoDup (map id fs) -> In f fs -> In g fs -> id f = id g -> f = g.
Proof.
  induction fs as [|h fs IH]; intros ND Hf Hg E; [destruct Hf|].
  cbn in ND. inversion ND as [|? ? Hnotin ND']; subst.
  destruct Hf as [->|Hf], Hg as [->|Hg]; auto.
  - exfalso. apply Hnotin. rewrite E. now apply in_map.
  - exfalso. apply Hnotin. rewrite <- E. now apply in_map.
Qed.

Lemma in_selectOnly fid fs f :
  In f fs -> In (withSelected (id f =? fid)%string f) (selectOnly fid fs).
Proof.
  intro Hin. unfold selectOnly.
  apply (in_map (fun p => withSelected (id p =? fid)%string p)). exact Hin.
Qed.

Lemma hasSelectedField_deselectAll fs : hasSelectedField (deselectAll fs) = false.
Proof.
  unfold hasSelectedField, deselectAll.
  induction fs as [|f fs IH]; [reflexivity | exact IH].
Qed.

Lemma Forall_deselectAll fs : Forall (fun f => selected f = false) (deselectAll fs).
Proof.
  unfold deselectAll. apply Forall_forall. intros f Hin.
  apply in_map_iff in Hin. destruct Hin as [g [<- _]]. reflexivity.
Qed.

Lemma hasSelectedField_true fs :
  hasSelectedField fs = true <-> exists f, In f fs /\ selected f = true.
Proof.
  unfold hasSelectedField. split.
  - destruct (find selected fs) as [f|] eqn:E; [|discriminate].
    intros _. apply find_some in E. now exists f.
  - intros [f [Hin Hs]].
    destruct (find selected fs) as [g|] eqn:E; [reflexivity|].
    rewrite (find_none _ _ E f Hin) in Hs. discriminate.
Qed.

End Store.

(** C6.  In every store reached from the empty one by appending a committed
    field (under a fresh identifier), selecting a field, deselecting all and
    removing a field, at most one field has [selected = true].  In
    particular, selecting a field B of such a store leaves every other field
    A of the store (the one selected before included, whatever its page)
    deselected and B selected, and B is then the only selected field. *)
Theorem reachable_at_most_one_selected (fs : list Field) :
  reachable fs ->
  (selectedCount fs <= 1)%nat
  /\ forall fA fB,
       In fA fs -> In fB fs -> fA <> fB -> selected fA = true ->
       In (withSelected false fA) (selectOnly (id fB) fs)
       /\ In (withSelected true fB) (selectOnly (id fB) fs)
       /\ (forall f, In f (selectOnly (id fB) fs) -> selected f = true ->
             f = withSelected true fB).
Proof.
  intro R. destruct (reachable_storeInv fs R) as [ND C].
  split; [exact C|].
  intros fA fB HA HB Hneq _.
  assert (NAB : (id fA =? id fB)%string = false).
  { apply String.eqb_neq. intro E. apply Hneq. exact (NoDup_id_inj fs fA fB ND HA HB E). }
  split; [|split].
  - rewrite <- NAB. now apply in_selectOnly.
  - rewrite <- (String.eqb_refl (id fB)). now apply in_selectOnly.
  - intros f Hin Hsel. unfold selectOnly in Hin.
    apply in_map_iff in Hin. destruct Hin as [g [<- Hg]].
    cbn in Hsel. rewrite Hsel.
    apply String.eqb_eq in Hsel.
    now rewrite (NoDup_id_inj fs g fB ND Hg HB Hsel).
Qed.

Lemma reachable_at_most_one_selected_witness :
  reachable storeAB
  /\ (selectedCount storeAB <= 1)%nat
  /\ selectOnly "B" storeAB = [withSelected false fieldA; withSelected true fieldB]
  /\ In (withSelected false fieldA) (selectOnly (id fieldB) storeAB)
  /\ In (withSelected true fieldB) (selectOnly (id fieldB) storeAB).
Proof.
  assert (R : reachable storeAB).
  { change storeAB with
      (appendField 2 "B" boxLarge (selectOnly "A" (appendField 1 "A" boxLarge []))).
    apply reach_append.
    - apply reach_select. apply reach_append; [apply reach_empty | intros []].
    - cbn. intros [E|[]]. discriminate E. }
  split; [exact R|].
  split; [exact (proj1 (reachable_at_most_one_selected _ R))|].
  split; [reflexivity|].
  assert (Hneq : fieldA <> fieldB) by discriminate.
  destruct (proj2 (reachable_at_most_one_selected _ R) fieldA fieldB
              (or_introl eq_refl) (or_intror (or_introl eq_refl)) Hneq eq_refl)
    as [HA [HB _]].
  split; [exact HA | exact HB].
Defined.

(** ** The listeners *)

Section Listeners.

Variable pageRef : HTMLDivElement.

Implicit Types (st : AppState) (ev : MouseEvent) (uuid : string).

Lemma fields_mouseMoveListener st ev :
  fields (mouseMoveListener pageRef st ev) = fields st
  \/ fields (mouseMoveListener pageRef st ev) = deselectAll (fields st).
Proof.
  unfold mouseMoveListener.
  destruct (target ev); [|now left].
  destruct (firstPoint st); [|now left].
  destruct (hasSelectedField (fields st)); [now right | now left].
Qed.

Lemma firstPoint_mouseMoveListener st ev :
  firstPoint (mouseMoveListener pageRef st ev) = firstPoint st.
Proof.
  destruct st as [pn [fp|] sp fs]; unfold mouseMoveListener; cbn;
    destruct (target ev); try reflexivity.
  destruct (hasSelectedField fs); reflexivity.
Qed.

(** Once nothing is selected, further moves leave the store alone. *)
Lemma fields_mouseMoves_deselected st evs :
  hasSelectedField (fields st) = false ->
  fields (mouseMoves pageRef st evs) = fields st.
Proof.
  unfold mouseMoves. revert st.
  induction evs as [|ev evs IH]; intros st H; [reflexivity|].
  cbn [fold_left].
  assert (E : fields (mouseMoveListener pageRef st ev) = fields st).
  { unfold mouseMoveListener.
    destruct (target ev); [|reflexivity].
    destruct (firstPoint st); [|reflexivity].
    rewrite H. reflexivity. }
  rewrite IH; rewrite E; [reflexivity | exact H].
Qed.

(** The release never edits a field already in the store except to clear
    flags, and otherwise only appends. *)
Lemma fields_commitNewZone uuid st ev :
  fields (commitNewZone uuid st ev) = fields st
  \/ fields (commitNewZone uuid st ev) = deselectAll (fields st)
  \/ exists bx, tooSmall bx = false
       /\ fields (commitNewZone uuid st ev)
          = appendField (pageNumber st) uuid bx (fields st).
Proof.
  unfold commitNewZone.
  destruct (secondPoint st) as [sp|]; [|now left].
  destruct (firstPoint st) as [fp|]; [|now left].
  cbv zeta.
  destruct (tooSmall {| a := fp; b := sp |}) eqn:T; cbn [negb].
  - destruct (hasSelectedField (fields st)); [|now left].
    destruct (target ev) as [el|]; [|now left].
    destruct (contains (classList el) "sb"); cbn [negb]; [now left|].
    right; left; reflexivity.
  - right; right. exists {| a := fp; b := sp |}. split; [exact T | reflexivity].
Qed.

End Listeners.

(** C10.  Every selection-changing operation keeps the sequence of the store:
    selecting a field, deselecting all, a move event (which may deselect all)
    and a release that ends a degenerate drag (which may deselect all) leave
    the list of (page, id, box) triples as it was, so the number of fields,
    their order and each field's id, page and box are unchanged and only
    [selected] flags can differ ([identity_pointwise] spells this out
    position by position). *)
Theorem selection_preserves_sequence :
  (forall fid fs, map identity (selectOnly fid fs) = map identity fs)
  /\ (forall fs, map identity (deselectAll fs) = map identity fs)
  /\ (forall pageRef st ev,
        map identity (fields (mouseMoveListener pageRef st ev))
        = map identity (fields st))
  /\ (forall uuid st ev fp sp,
        firstPoint st = Some fp -> secondPoint st = Some sp ->
        tooSmall {| a := fp; b := sp |} = true ->
        map identity (fields (commitNewZone uuid st ev))
        = map identity (fields st)).
Proof.
  split; [exact identity_selectOnly|].
  split; [exact identity_deselectAll|].
  split.
  - intros pageRef st ev.
    destruct (fields_mouseMoveListener pageRef st ev) as [-> | ->];
      [reflexivity | apply identity_deselectAll].
  - intros uuid st ev fp sp Hf Hs T.
    unfold commitNewZone. rewrite Hs, Hf. cbv zeta. rewrite T. cbn [negb].
    destruct (hasSelectedField (fields st)); [|reflexivity].
    destruct (target ev) as [el|]; [|reflexivity].
    destruct (contains (classList el) "sb"); cbn [negb];
      [reflexivity | apply identity_deselectAll].
Qed.

Lemma selection_preserves_sequence_witness :
  firstPoint smallDrag = Some origin
  /\ secondPoint smallDrag = Some {| x := 5; y := 5 |}
  /\ tooSmall {| a := origin; b := {| x := 5; y := 5 |} |} = true
  /\ fields (commitNewZone "C" smallDrag (eventAt (Some canvas) 5 5)) = deselectAll storeAB
  /\ map identity (fields (commitNewZone "C" smallDrag (eventAt (Some canvas) 5 5)))
     = map identity (fields smallDrag).
Proof.
  repeat (split; [reflexivity|]).
  exact (proj2 (proj2 (proj2 selection_preserves_sequence)) "C"%string smallDrag
           (eventAt (Some canvas) 5 5) origin {| x := 5; y := 5 |}
           eq_refl eq_refl eq_refl).
Defined.

(** ** Release: [commitNewZone] *)

(** C1, as the code has it.  A release with both points set clears
    [firstPoint] and [secondPoint] whenever the candidate box is not
    degenerate, or no field is selected, or the release target is resolved
    (the delete control included). *)
Theorem commitNewZone_returns_to_idle
    (uuid : string) (st : AppState) (ev : MouseEvent) (fp sp : Point) :
  firstPoint st = Some fp ->
  secondPoint st = Some sp ->
  tooSmall {| a := fp; b := sp |} = false
    \/ hasSelectedField (fields st) = false
    \/ target ev <> None ->
  firstPoint (commitNewZone uuid st ev) = None
  /\ secondPoint (commitNewZone uuid st ev) = None.
Proof.
  intros Hf Hs H. unfold commitNewZone. rewrite Hs, Hf. cbv zeta.
  destruct (tooSmall {| a := fp; b := sp |}); cbn [negb]; [|split; reflexivity].
  destruct (hasSelectedField (fields st)); [|split; reflexivity].
  destruct (target ev) as [el|].
  - destruct (contains (classList el) "sb"); cbn [negb]; split; reflexivity.
  - destruct H as [H|[H|H]]; [discriminate H | discriminate H | now elim H].
Qed.

Lemma commitNewZone_returns_to_idle_witness :
  hasSelectedField (fields smallDrag) = true
  /\ tooSmall boxSmall = true
  /\ firstPoint (commitNewZone "C" smallDrag (eventAt (Some deleteControl) 5 5)) = None
  /\ secondPoint (commitNewZone "C" smallDrag (eventAt (Some deleteControl) 5 5)) = None.
Proof.
  split; [reflexivity|]. split; [reflexivity|].
  apply (commitNewZone_returns_to_idle "C" smallDrag
           (eventAt (Some deleteControl) 5 5) origin {| x := 5; y := 5 |}).
  - reflexivity.
  - reflexivity.
  - right; right. discriminate.
Defined.

(** C1, as stated, fails twice: a release that follows a press with no move
    in between keeps [firstPoint], and so does the release of a degenerate
    drag with a field selected and an unresolved target. *)
Lemma commitNewZone_keeps_drag_counterexample :
  (firstPoint pressedState = Some origin
   /\ secondPoint pressedState = None
   /\ firstPoint (commitNewZone "C" pressedState (eventAt (Some canvas) 0 0))
      = Some origin)
  /\ (firstPoint smallDrag = Some origin
      /\ firstPoint (commitNewZone "C" smallDrag (eventAt None 5 5)) = Some origin
      /\ secondPoint (commitNewZone "C" smallDrag (eventAt None 5 5))
         = Some {| x := 5; y := 5 |}).
Proof.
  repeat split.
Qed.

(** C2, as the code has it.  A release with [secondPoint] absent returns at
    once and leaves the whole state, the selection included, as it was.  With
    a field selected, the release leaves every [selected] flag false exactly
    when both points are set, the candidate box is degenerate and the target
    is resolved and is not a delete control. *)
Theorem commitNewZone_selection_on_release
    (uuid : string) (st : AppState) (ev : MouseEvent) :
  (secondPoint st = None -> commitNewZone uuid st ev = st)
  /\ (hasSelectedField (fields st) = true ->
      (Forall (fun f => selected f = false) (fields (commitNewZone uuid st ev))
       <-> exists fp sp el,
             firstPoint st = Some fp /\ secondPoint st = Some sp
             /\ tooSmall {| a := fp; b := sp |} = true
             /\ target ev = Some el
             /\ contains (classList el) "sb" = false)).
Proof.
  split.
  - intro Hs. unfold commitNewZone. rewrite Hs. reflexivity.
  - intro Hsel.
    assert (Keep : ~ Forall (fun f => selected f = false) (fields st)).
    { intro All. apply hasSelectedField_true in Hsel.
      destruct Hsel as [f [Hin Hf]].
      rewrite Forall_forall in All. rewrite (All f Hin) in Hf. discriminate. }
    unfold commitNewZone.
    destruct (secondPoint st) as [sp|] eqn:Hs;
      [|split; [intro All; now elim Keep | intros (?&?&?&_&E&_); discriminate E]].
    destruct (firstPoint st) as [fp|] eqn:Hf;
      [|split; [intro All; now elim Keep | intros (?&?&?&E&_); discriminate E]].
    cbv zeta.
    destruct (tooSmall {| a := fp; b := sp |}) eqn:T; cbn [negb].
    + rewrite Hsel.
      destruct (target ev) as [el|] eqn:Ht;
        [|split; [intro All; now elim Keep | intros (?&?&?&_&_&_&E&_); discriminate E]].
      destruct (contains (classList el) "sb") eqn:Hc; cbn [negb].
      * split; [intro All; now elim Keep|].
        intros (?&?&el'&_&_&_&E&C). injection E as <-.
        rewrite Hc in C. discriminate C.
      * split; [|intros _; apply Forall_deselectAll].
        intros _. exists fp, sp, el. auto.
    + split.
      * intro All. cbn in All. unfold appendField in All.
        apply Forall_app in All. now elim Keep.
      * intros (fp'&sp'&?&E1&E2&T'&_).
        injection E1 as <-. injection E2 as <-.
        rewrite T in T'. discriminate T'.
Qed.

Lemma commitNewZone_selection_on_release_witness :
  secondPoint pressedState = None
  /\ hasSelectedField (fields smallDrag) = true
  /\ commitNewZone "C" pressedState (eventAt (Some canvas) 0 0) = pressedState
  /\ Forall (fun f => selected f = false)
       (fields (commitNewZone "C" smallDrag (eventAt (Some canvas) 5 5))).
Proof.
  split; [reflexivity|]. split; [reflexivity|]. split.
  - exact (proj1 (commitNewZone_selection_on_release "C" pressedState
                    (eventAt (Some canvas) 0 0)) eq_refl).
  - apply (proj2 (commitNewZone_selection_on_release "C" smallDrag
                    (eventAt (Some canvas) 5 5)) eq_refl).
    exists origin, {| x := 5; y := 5 |}, canvas.
    repeat split.
Defined.

(** C2, as stated, fails: with a field selected, a press at the origin and no
    move, a release on the canvas (not a delete control) leaves that field
    selected. *)
Lemma commitNewZone_click_keeps_selection_counterexample :
  firstPoint pressedState = Some origin
  /\ secondPoint pressedState = None
  /\ hasSelectedField (fields pressedState) = true
  /\ contains (classList canvas) "sb" = false
  /\ fields (commitNewZone "C" pressedState (eventAt (Some canvas) 0 0)) = [fieldA; fieldB]
  /\ selected fieldA = true.
Proof.
  repeat split.
Qed.

(** C7.  A release with both points set and a candidate box that is not
    degenerate appends exactly one field to the store: its page is the
    current page, its box the candidate box and its flag false.  The fields
    already in the store, their flags included, are untouched.  This holds
    for every release target. *)
Theorem commitNewZone_commits
    (uuid : string) (st : AppState) (ev : MouseEvent) (fp sp : Point) :
  firstPoint st = Some fp ->
  secondPoint st = Some sp ->
  tooSmall {| a := fp; b := sp |} = false ->
  fields (commitNewZone uuid st ev)
  = fields st ++ [ {| page := pageNumber st;
                      box := {| a := fp; b := sp |};
                      id := uuid;
                      selected := false |} ].
Proof.
  intros Hf Hs T. unfold commitNewZone. rewrite Hs, Hf. cbv zeta. rewrite T.
  reflexivity.
Qed.

(** The scenario of the specification: press at (0,0), move to (50,50),
    release on the canvas. *)
Lemma commitNewZone_commits_witness :
  firstPoint specDrag = Some origin
  /\ secondPoint specDrag = Some {| x := 50; y := 50 |}
  /\ size boxLarge = 2500
  /\ fields (commitNewZone "C" specDrag (eventAt (Some canvas) 50 50))
     = [ {| page := 1; box := boxLarge; id := "C"; selected := false |} ].
Proof.
  repeat (split; [reflexivity|]).
  exact (commitNewZone_commits "C" specDrag (eventAt (Some canvas) 50 50)
           origin {| x := 50; y := 50 |} eq_refl eq_refl eq_refl).
Defined.

(** ** Move: [mouseMoveListener] *)

(** C4, as the code has it.  A move event delivered while [firstPoint] is
    null leaves [fields], [firstPoint] and the page number unchanged, and
    overwrites [secondPoint] with the local pointer position (when the target
    is null nothing is written). *)
Theorem mouseMoveListener_idle
    (pageRef : HTMLDivElement) (st : AppState) (ev : MouseEvent) :
  firstPoint st = None ->
  fields (mouseMoveListener pageRef st ev) = fields st
  /\ firstPoint (mouseMoveListener pageRef st ev) = None
  /\ pageNumber (mouseMoveListener pageRef st ev) = pageNumber st
  /\ secondPoint (mouseMoveListener pageRef st ev)
     = match target ev with
       | Some _ => mousePositionWithinContainer ev pageRef
       | None => secondPoint st
       end.
Proof.
  intro Hf. unfold mouseMoveListener. rewrite Hf.
  destruct (target ev); cbn; rewrite ?Hf; auto.
Qed.

Lemma mouseMoveListener_idle_witness :
  firstPoint idleState = None
  /\ fields (mouseMoveListener pageDiv idleState (eventAt (Some canvas) 7 9)) = storeAB
  /\ secondPoint (mouseMoveListener pageDiv idleState (eventAt (Some canvas) 7 9))
     = Some {| x := 7; y := 9 |}.
Proof.
  split; [reflexivity|].
  destruct (mouseMoveListener_idle pageDiv idleState (eventAt (Some canvas) 7 9) eq_refl)
    as [Hfields [_ [_ Hsecond]]].
  split; [exact Hfields | exact Hsecond].
Defined.

(** C4, as stated, fails: a move over the page while no gesture is in
    progress records the pointer position in [secondPoint]. *)
Lemma mouseMoveListener_idle_counterexample :
  firstPoint idleState = None
  /\ secondPoint idleState = None
  /\ secondPoint (mouseMoveListener pageDiv idleState (eventAt (Some canvas) 7 9))
     = Some {| x := 7; y := 9 |}
  /\ mouseMoveListener pageDiv idleState (eventAt (Some canvas) 7 9) <> idleState.
Proof.
  repeat split. discriminate.
Qed.

(** C8.  A move event delivered to the listener (a dispatched event has its
    target, [el]) while [firstPoint] is set and some field is selected sets
    every field's flag to false.  The deselection stays: after any further
    moves, a release whose candidate box is degenerate commits nothing and
    leaves the store equal to the deselected one. *)
Theorem mouseMoveListener_deselects
    (pageRef : HTMLDivElement) (st : AppState) (ev : MouseEvent)
    (el : HTMLElement) (fp : Point) :
  target ev = Some el ->
  firstPoint st = Some fp ->
  hasSelectedField (fields st) = true ->
  fields (mouseMoveListener pageRef st ev) = deselectAll (fields st)
  /\ Forall (fun f => selected f = false) (fields (mouseMoveListener pageRef st ev))
  /\ forall (evs : list MouseEvent) (uuid : string) (rel : MouseEvent) (sp : Point),
       secondPoint (mouseMoves pageRef (mouseMoveListener pageRef st ev) evs) = Some sp ->
       tooSmall {| a := fp; b := sp |} = true ->
       fields (commitNewZone uuid
                 (mouseMoves pageRef (mouseMoveListener pageRef st ev) evs) rel)
       = deselectAll (fields st).
Proof.
  intros Ht Hf Hsel.
  assert (E : fields (mouseMoveListener pageRef st ev) = deselectAll (fields st)).
  { unfold mouseMoveListener. rewrite Ht, Hf, Hsel. reflexivity. }
  split; [exact E|].
  split; [rewrite E; apply Forall_deselectAll|].
  intros evs uuid rel sp Hs T.
  set (st1 := mouseMoveListener pageRef st ev) in *.
  assert (Hnone : hasSelectedField (fields st1) = false).
  { rewrite E. apply hasSelectedField_deselectAll. }
  pose proof (fields_mouseMoves_deselected pageRef st1 evs Hnone) as Efs.
  assert (Hf2 : firstPoint (mouseMoves pageRef st1 evs) = Some fp).
  { assert (G : forall l s, firstPoint (mouseMoves pageRef s l) = firstPoint s).
    { unfold mouseMoves. induction l as [|e l IH]; intro s; [reflexivity|].
      cbn [fold_left]. rewrite IH. apply firstPoint_mouseMoveListener. }
    rewrite G. unfold st1. rewrite firstPoint_mouseMoveListener. exact Hf. }
  unfold commitNewZone. rewrite Hs, Hf2. cbv zeta. rewrite T. cbn [negb].
  rewrite Efs, Hnone. cbn. rewrite Efs. exact E.
Qed.

Lemma mouseMoveListener_deselects_witness :
  hasSelectedField (fields pressedState) = true
  /\ fields (mouseMoveListener pageDiv pressedState (eventAt (Some canvas) 3 4))
     = [withSelected false fieldA; fieldB]
  /\ fields (commitNewZone "C"
               (mouseMoves pageDiv
                  (mouseMoveListener pageDiv pressedState (eventAt (Some canvas) 3 4))
                  [eventAt (Some canvas) 5 5])
               (eventAt (Some canvas) 5 5))
     = [withSelected false fieldA; fieldB].
Proof.
  split; [reflexivity|].
  destruct (mouseMoveListener_deselects pageDiv pressedState
              (eventAt (Some canvas) 3 4) canvas origin eq_refl eq_refl eq_refl)
    as [Hmove [_ Hlater]].
  split; [exact Hmove|].
  exact (Hlater [eventAt (Some canvas) 5 5] "C"%string (eventAt (Some canvas) 5 5)
           {| x := 5; y := 5 |} eq_refl eq_refl).
Defined.

(** ** Events whose target is null *)

(** C5, as the code has it.  A press or a move whose target is null changes
    nothing.  A release whose target is null changes nothing exactly when a
    point is missing, or when the candidate box is degenerate and a field is
    selected; otherwise it runs as for any other target: a box that is not
    degenerate is committed and both points are cleared, and a degenerate one
    with no field selected has both points cleared and the store kept. *)
Theorem null_target_events
    (pageRef : HTMLDivElement) (uuid : string) (st : AppState) (ev : MouseEvent) :
  target ev = None ->
  mouseDownListener pageRef st ev = st
  /\ mouseMoveListener pageRef st ev = st
  /\ (commitNewZone uuid st ev = st
      <-> firstPoint st = None
          \/ secondPoint st = None
          \/ exists fp sp,
               firstPoint st = Some fp /\ secondPoint st = Some sp
               /\ tooSmall {| a := fp; b := sp |} = true
               /\ hasSelectedField (fields st) = true)
  /\ (forall fp sp,
        firstPoint st = Some fp -> secondPoint st = Some sp ->
        tooSmall {| a := fp; b := sp |} = false ->
        fields (commitNewZone uuid st ev)
        = fields st ++ [ {| page := pageNumber st; box := {| a := fp; b := sp |};
                            id := uuid; selected := false |} ]
        /\ firstPoint (commitNewZone uuid st ev) = None
        /\ secondPoint (commitNewZone uuid st ev) = None)
  /\ (forall fp sp,
        firstPoint st = Some fp -> secondPoint st = Some sp ->
        tooSmall {| a := fp; b := sp |} = true ->
        hasSelectedField (fields st) = false ->
        fields (commitNewZone uuid st ev) = fields st
        /\ firstPoint (commitNewZone uuid st ev) = None
        /\ secondPoint (commitNewZone uuid st ev) = None).
Proof.
  intro Ht.
  split; [unfold mouseDownListener; rewrite Ht; reflexivity|].
  split; [unfold mouseMoveListener; rewrite Ht; reflexivity|].
  split; [|split].
  - unfold commitNewZone. rewrite Ht.
    destruct (secondPoint st) as [sp|] eqn:Hs; [|split; auto].
    destruct (firstPoint st) as [fp|] eqn:Hf; [|split; auto].
    cbv zeta.
    assert (Cleared : forall s, setSecondPoint None (setFirstPoint None s) <> st).
    { intros s E. apply (f_equal firstPoint) in E. cbn in E. rewrite Hf in E.
      discriminate E. }
    destruct (tooSmall {| a := fp; b := sp |}) eqn:T; cbn [negb].
    + destruct (hasSelectedField (fields st)) eqn:Hsel.
      * split; [|reflexivity]. intros _. right; right. exists fp, sp. auto.
      * split; [intro E; now apply Cleared in E|].
        intros [E|[E|(?&?&_&_&_&E)]]; discriminate E.
    + split; [intro E; now apply Cleared in E|].
      intros [E|[E|(fp'&sp'&E1&E2&T'&_)]]; try discriminate E.
      injection E1 as <-. injection E2 as <-. rewrite T in T'. discriminate T'.
  - intros fp sp Hf Hs T. unfold commitNewZone. rewrite Hs, Hf. cbv zeta.
    rewrite T. repeat split.
  - intros fp sp Hf Hs T Hsel. unfold commitNewZone. rewrite Hs, Hf. cbv zeta.
    rewrite T, Hsel. repeat split.
Qed.

Lemma null_target_events_witness :
  mouseDownListener pageDiv idleState (eventAt None 1 1) = idleState
  /\ mouseMoveListener pageDiv smallDrag (eventAt None 9 9) = smallDrag
  /\ commitNewZone "C" smallDrag (eventAt None 5 5) = smallDrag
  /\ fields (commitNewZone "C" largeDrag (eventAt None 50 50))
     = [fieldA; fieldB; {| page := 2; box := boxLarge; id := "C"; selected := false |}].
Proof.
  split; [exact (proj1 (null_target_events pageDiv "C" idleState (eventAt None 1 1) eq_refl))|].
  split;
    [exact (proj1 (proj2 (null_target_events pageDiv "C" smallDrag (eventAt None 9 9) eq_refl)))|].
  split.
  - apply (proj1 (proj2 (proj2
             (null_target_events pageDiv "C" smallDrag (eventAt None 5 5) eq_refl)))).
    right; right. exists origin, {| x := 5; y := 5 |}. repeat split.
  - exact (proj1 (proj1 (proj2 (proj2 (proj2
             (null_target_events pageDiv "C" largeDrag (eventAt None 50 50) eq_refl))))
             origin {| x := 50; y := 50 |} eq_refl eq_refl eq_refl)).
Defined.

(** C5, as stated, fails: the release of a non-degenerate drag commits a
    field although its target is null, and clears both points. *)
Lemma commitNewZone_null_target_counterexample :
  target (eventAt None 50 50) = None
  /\ fields (commitNewZone "C" largeDrag (eventAt None 50 50))
     = [fieldA; fieldB; {| page := 2; box := boxLarge; id := "C"; selected := false |}]
  /\ firstPoint (commitNewZone "C" largeDrag (eventAt None 50 50)) = None
  /\ commitNewZone "C" largeDrag (eventAt None 50 50) <> largeDrag.
Proof.
  repeat split. discriminate.
Qed.

(** * Further properties of the code *)

(** ** [BoxElement] *)

(** X3.  Whatever the order of the two corners, the rendered rectangle has
    non-negative width and height, its left edge is the smaller of the two x
    coordinates and its top edge the smaller of the two y coordinates, so
    neither corner lies left of or above it, and its width times its height
    is the area [size] computes. *)
Theorem BoxElement_rectangle (props : BoxProps) :
  let v := BoxElement props in
  let bx := propsBox props in
  0 <= viewWidth v /\ 0 <= viewHeight v
  /\ viewLeft v <= x (a bx) /\ viewLeft v <= x (b bx)
  /\ (viewLeft v = x (a bx) \/ viewLeft v = x (b bx))
  /\ viewTop v <= y (a bx) /\ viewTop v <= y (b bx)
  /\ (viewTop v = y (a bx) \/ viewTop v = y (b bx))
  /\ viewWidth v * viewHeight v = size bx.
Proof.
  cbv zeta. unfold BoxElement. cbn.
  repeat split; try reflexivity; lia.
Qed.

(** X4.  Rendering does not depend on which corner the drag started from: a
    box and the box with its corners exchanged give the same rectangle, the
    same colour, the same label and the same delete control. *)
Theorem BoxElement_swapCorners
    (bx : Box) (sel : bool) (click del : option Updater) :
  BoxElement {| propsBox := swapCorners bx; propsSelected := sel;
                propsOnClick := click; propsDeleteSelf := del |}
  = BoxElement {| propsBox := bx; propsSelected := sel;
                  propsOnClick := click; propsDeleteSelf := del |}.
Proof.
  assert (Esize : size (swapCorners bx) = size bx).
  { destruct bx as [[ax ay] [bx' by']]. unfold size, swapCorners. cbn.
    rewrite <- (Z.abs_opp (ax - bx')), <- (Z.abs_opp (ay - by')).
    f_equal; f_equal; lia. }
  unfold BoxElement. cbn [propsBox propsSelected propsOnClick propsDeleteSelf].
  rewrite Esize.
  destruct bx as [[ax ay] [bx' by']]. unfold swapCorners. cbn.
  replace (Z.min bx' ax) with (Z.min ax bx') by lia.
  replace (Z.min by' ay) with (Z.min ay by') by lia.
  replace (Z.abs (bx' - ax)) with (Z.abs (ax - bx')) by lia.
  replace (Z.abs (by' - ay)) with (Z.abs (ay - by')) by lia.
  reflexivity.
Qed.

(** X5.  A delete control is rendered exactly when the box is selected and a
    delete handler was passed.  It is then placed 11 units beyond the box's
    left edge plus its width, level with the box's top, carries the class
    [sb] the release listener looks for, and its click runs the handler
    passed. *)
Theorem BoxElement_delete_control (props : BoxProps) :
  (deleteView (BoxElement props) = None
   <-> propsSelected props = false \/ propsDeleteSelf props = None)
  /\ forall d, deleteView (BoxElement props) = Some d ->
       deleteLeft d = viewLeft (BoxElement props) + viewWidth (BoxElement props) + 11
       /\ deleteTop d = viewTop (BoxElement props)
       /\ contains (classList (deleteElement d)) "sb" = true
       /\ propsDeleteSelf props = Some (deleteOnClick d).
Proof.
  unfold BoxElement. cbn [deleteView viewTop viewLeft viewWidth].
  destruct (propsSelected props), (propsDeleteSelf props) as [del|].
  - split.
    + split; [discriminate | intros [H|H]; discriminate H].
    + intros d H. injection H as <-. cbn. repeat split.
  - split; [split; auto | intros d H; discriminate H].
  - split; [split; auto | intros d H; discriminate H].
  - split; [split; auto | intros d H; discriminate H].
Qed.

Lemma BoxElement_delete_control_witness :
  option_map deleteLeft (deleteView (fieldElement fieldA)) = Some 61.
Proof.
  unfold fieldElement.
  destruct (deleteView (BoxElement _)) as [d|] eqn:E; [|discriminate E].
  cbn [option_map]. f_equal.
  exact (proj1 (proj2 (BoxElement_delete_control _) d E)).
Defined.

(** X6.  The release that belongs to a click on a rendered delete control
    (a degenerate box, the control as target) ends the gesture and leaves the
    store, the selection included, to the control's own click handler. *)
Theorem release_on_delete_control
    (props : BoxProps) (d : DeleteView)
    (uuid : string) (st : AppState) (ev : MouseEvent) (fp sp : Point) :
  deleteView (BoxElement props) = Some d ->
  target ev = Some (deleteElement d) ->
  firstPoint st = Some fp ->
  secondPoint st = Some sp ->
  tooSmall {| a := fp; b := sp |} = true ->
  fields (commitNewZone uuid st ev) = fields st
  /\ firstPoint (commitNewZone uuid st ev) = None
  /\ secondPoint (commitNewZone uuid st ev) = None.
Proof.
  intros Hd Ht Hf Hs T.
  assert (Hsb : contains (classList (deleteElement d)) "sb" = true).
  { unfold BoxElement in Hd. cbn [deleteView] in Hd.
    destruct (propsSelected props), (propsDeleteSelf props);
      try discriminate Hd.
    injection Hd as <-. reflexivity. }
  unfold commitNewZone. rewrite Hs, Hf. cbv zeta. rewrite T, Ht, Hsb. cbn [negb].
  destruct (hasSelectedField (fields st)); repeat split.
Qed.

Lemma release_on_delete_control_witness :
  deleteView (fieldElement fieldA)
  = Some {| deleteLeft := 61; deleteTop := 0; deleteElement := deleteControl;
            deleteOnClick := removeField "A" |}
  /\ fields (commitNewZone "C" smallDrag (eventAt (Some deleteControl) 5 5)) = storeAB
  /\ firstPoint (commitNewZone "C" smallDrag (eventAt (Some deleteControl) 5 5)) = None
  /\ secondPoint (commitNewZone "C" smallDrag (eventAt (Some deleteControl) 5 5)) = None.
Proof.
  split; [reflexivity|].
  exact (release_on_delete_control
           {| propsBox := boxLarge; propsSelected := true;
              propsOnClick := Some (selectOnly "A");
              propsDeleteSelf := Some (removeField "A") |}
           {| deleteLeft := 61; deleteTop := 0; deleteElement := deleteControl;
              deleteOnClick := removeField "A" |}
           "C" smallDrag (eventAt (Some deleteControl) 5 5)
           origin {| x := 5; y := 5 |} eq_refl eq_refl eq_refl eq_refl eq_refl).
Defined.

(** ** The store updaters *)

Section StoreUpdaters.

Implicit Types (fs : list Field) (f g : Field) (fid : string).

Lemma deselectAll_unselected fs :
  hasSelectedField fs = false -> deselectAll fs = fs.
Proof.
  unfold hasSelectedField, deselectAll.
  induction fs as [|f fs IH]; [reflexivity|].
  cbn [find map]. destruct f as [pg bx fid [|]]; cbn [selected]; [discriminate|].
  intro H. rewrite (IH H). reflexivity.
Qed.

Lemma selectOnly_absent_deselects fid fs :
  ~ In fid (map id fs) -> selectOnly fid fs = deselectAll fs.
Proof.
  unfold selectOnly, deselectAll. intro Hnot.
  apply map_ext_in. intros f Hin.
  destruct (String.eqb_spec (id f) fid) as [E|N]; [|reflexivity].
  exfalso. apply Hnot. rewrite <- E. now apply in_map.
Qed.

Lemma removeField_absent_same fid fs :
  ~ In fid (map id fs) -> removeField fid fs = fs.
Proof.
  unfold removeField. induction fs as [|f fs IH]; [reflexivity|].
  cbn [map filter]. intro Hnot.
  destruct (String.eqb_spec (id f) fid) as [E|N]; cbn [negb].
  - exfalso. apply Hnot. left. exact E.
  - rewrite IH; [reflexivity|]. intro Hin. apply Hnot. right. exact Hin.
Qed.

Lemma in_removeField fid fs g :
  In g (removeField fid fs) <-> In g fs /\ id g <> fid.
Proof.
  unfold removeField. rewrite filter_In.
  destruct (String.eqb_spec (id g) fid) as [E|N]; cbn [negb]; split;
    intros [H1 H2]; split; auto; discriminate.
Qed.

Lemma length_removeField_present fs f :
  NoDup (map id fs) -> In f fs ->
  S (List.length (removeField (id f) fs)) = List.length fs.
Proof.
  induction fs as [|h fs IH]; intros ND Hin; [destruct Hin|].
  cbn in ND. inversion ND as [|? ? Hnotin ND']; subst.
  unfold removeField. cbn [filter].
  destruct (String.eqb_spec (id h) (id f)) as [E|N]; cbn [negb].
  - fold (removeField (id f) fs).
    rewrite removeField_absent_same; [reflexivity|]. now rewrite <- E.
  - destruct Hin as [->|Hin]; [now elim N|].
    cbn [List.length]. f_equal. apply IH; assumption.
Qed.

Lemma selectedCount_removeField_selected fs f :
  In f fs -> selected f = true ->
  (selectedCount (removeField (id f) fs) < selectedCount fs)%nat.
Proof.
  unfold selectedCount.
  induction fs as [|h fs IH]; intros Hin Hsel; [destruct Hin|].
  unfold removeField. cbn [filter].
  destruct (String.eqb_spec (id h) (id f)) as [E|N]; cbn [negb].
  - fold (removeField (id f) fs).
    pose proof (selectedCount_removeField (id f) fs) as Hle.
    unfold selectedCount in Hle.
    destruct Hin as [->|Hin].
    + rewrite Hsel. cbn [List.length]. lia.
    + specialize (IH Hin Hsel). destruct (selected h); cbn [List.length]; lia.
  - destruct Hin as [->|Hin]; [now elim N|].
    specialize (IH Hin Hsel). fold (removeField (id f) fs).
    cbn [filter]. destruct (selected h); cbn [List.length]; lia.
Qed.

Lemma selectedCount_zero fs :
  selectedCount fs = 0%nat -> hasSelectedField fs = false.
Proof.
  unfold selectedCount, hasSelectedField.
  induction fs as [|f fs IH]; [reflexivity|].
  cbn [filter find]. destruct (selected f); [discriminate | exact IH].
Qed.

Lemma selectedCount_selectOnly_present fid fs :
  NoDup (map id fs) -> In fid (map id fs) ->
  selectedCount (selectOnly fid fs) = 1%nat.
Proof.
  induction fs as [|f fs IH]; intros ND Hin; [destruct Hin|].
  cbn in ND. inversion ND as [|? ? Hnotin ND']; subst.
  change (selectedCount (selectOnly fid (f :: fs)))
    with (List.length (filter selected
            (withSelected (id f =? fid)%string f :: selectOnly fid fs))).
  cbn [filter withSelected selected].
  destruct (String.eqb_spec (id f) fid) as [E|N].
  - subst fid. cbn [List.length].
    fold (selectedCount (selectOnly (id f) fs)).
    now rewrite selectedCount_selectOnly_absent.
  - destruct Hin as [E|Hin]; [now elim N|].
    now apply IH.
Qed.

End StoreUpdaters.

(** X7.  A click or a delete that names an identifier no longer in the store
    (a handler kept from an earlier render) does no harm: the delete leaves
    the store as it is, and the click selects nothing and so deselects every
    field. *)
Theorem stale_identifier (fid : string) (fs : list Field) :
  ~ In fid (map id fs) ->
  removeField fid fs = fs
  /\ selectOnly fid fs = deselectAll fs
  /\ hasSelectedField (selectOnly fid fs) = false.
Proof.
  intro Hnot.
  split; [now apply removeField_absent_same|].
  split; [now apply selectOnly_absent_deselects|].
  rewrite selectOnly_absent_deselects by assumption.
  apply hasSelectedField_deselectAll.
Qed.

Lemma stale_identifier_witness :
  removeField "Z" storeAB = storeAB
  /\ selectOnly "Z" storeAB = deselectAll storeAB
  /\ hasSelectedField (selectOnly "Z" storeAB) = false.
Proof.
  apply (stale_identifier "Z" storeAB).
  cbn. intros [E|[E|[]]]; discriminate E.
Defined.

(** X8.  Only the last selection counts: selecting a field after any earlier
    selection or deselection gives the same store as selecting it directly,
    and deselecting all after a selection gives the same store as
    deselecting all directly. *)
Theorem selection_last_wins (fid fid' : string) (fs : list Field) :
  selectOnly fid (selectOnly fid' fs) = selectOnly fid fs
  /\ selectOnly fid (deselectAll fs) = selectOnly fid fs
  /\ deselectAll (selectOnly fid' fs) = deselectAll fs.
Proof.
  unfold selectOnly, deselectAll.
  repeat split; rewrite map_map; apply map_ext; intro f; reflexivity.
Qed.

(** X9.  Deleting removes every field that carries the identifier and
    nothing else: no field with that identifier is left, every other field
    stays, deleting twice is deleting once, and two deletions can be done in
    either order. *)
Theorem removeField_effect (fid fid' : string) (fs : list Field) :
  ~ In fid (map id (removeField fid fs))
  /\ (forall g, id g <> fid -> (In g (removeField fid fs) <-> In g fs))
  /\ removeField fid (removeField fid fs) = removeField fid fs
  /\ removeField fid (removeField fid' fs) = removeField fid' (removeField fid fs).
Proof.
  split; [|split; [|split]].
  - intro Hin. apply in_map_iff in Hin. destruct Hin as [g [E Hg]].
    apply in_removeField in Hg. tauto.
  - intros g N. rewrite in_removeField. tauto.
  - apply removeField_absent_same.
    intro Hin. apply in_map_iff in Hin. destruct Hin as [g [E Hg]].
    apply in_removeField in Hg. tauto.
  - unfold removeField.
    induction fs as [|f fs IH]; [reflexivity|].
    cbn [filter].
    destruct (negb (id f =? fid')%string) eqn:E1,
             (negb (id f =? fid)%string) eqn:E2;
      cbn [filter]; rewrite ?E1, ?E2, IH; reflexivity.
Qed.

(** X10.  In a store built by the four updaters, deleting the selected field
    removes exactly one field and leaves nothing selected. *)
Theorem remove_selected_field (fs : list Field) (f : Field) :
  reachable fs -> In f fs -> selected f = true ->
  hasSelectedField (removeField (id f) fs) = false
  /\ S (List.length (removeField (id f) fs)) = List.length fs.
Proof.
  intros R Hin Hsel. destruct (reachable_storeInv fs R) as [ND C].
  split.
  - apply selectedCount_zero.
    pose proof (selectedCount_removeField_selected fs f Hin Hsel). lia.
  - now apply length_removeField_present.
Qed.

Lemma storeAB_reachable : reachable storeAB.
Proof.
  change storeAB with
    (appendField 2 "B" boxLarge (selectOnly "A" (appendField 1 "A" boxLarge []))).
  apply reach_append.
  - apply reach_select. apply reach_append; [apply reach_empty | intros []].
  - cbn. intros [E|[]]. discriminate E.
Defined.

Lemma remove_selected_field_witness :
  In fieldA storeAB /\ selected fieldA = true
  /\ hasSelectedField (removeField (id fieldA) storeAB) = false
  /\ S (List.length (removeField (id fieldA) storeAB)) = List.length storeAB.
Proof.
  split; [left; reflexivity|]. split; [reflexivity|].
  exact (remove_selected_field storeAB fieldA storeAB_reachable
           (or_introl eq_refl) eq_refl).
Defined.

(** ** The session *)

Section Session.

Variable numPages : option Z.

Implicit Types (st : AppState) (act : Action).

(** Every step edits the store by one of the four updaters, or not at all;
    an append is of a box that is not degenerate, on the current page. *)
Lemma fields_step st act :
  fields (step numPages st act) = fields st
  \/ fields (step numPages st act) = deselectAll (fields st)
  \/ (exists fid, fields (step numPages st act) = selectOnly fid (fields st))
  \/ (exists fid, fields (step numPages st act) = removeField fid (fields st))
  \/ (exists uuid ev bx, act = MouseUp uuid ev /\ tooSmall bx = false
        /\ fields (step numPages st act)
           = appendField (pageNumber st) uuid bx (fields st)).
Proof.
  destruct act as [c ev|c ev|uuid ev|fid|fid| | | |]; cbn [step].
  - left. unfold mouseDownListener.
    destruct (target ev), (firstPoint st); reflexivity.
  - destruct (fields_mouseMoveListener c st ev) as [E|E]; [now left | now right; left].
  - destruct (fields_commitNewZone uuid st ev) as [E|[E|[bx [T E]]]];
      [now left | now right; left |].
    right; right; right; right. exists uuid, ev, bx. auto.
  - right; right; left. exists fid. reflexivity.
  - right; right; right; left. exists fid. reflexivity.
  - now left.
  - now left.
  - now left.
  - now left.
Qed.

Lemma reachableApp_store st : reachableApp numPages st -> reachable (fields st).
Proof.
  induction 1 as [|st act R IH Hfresh]; [apply reach_empty|].
  destruct (fields_step st act)
    as [E|[E|[[fid E]|[[fid E]|[uuid [ev [bx [-> [_ E]]]]]]]]]; rewrite E.
  - exact IH.
  - now apply reach_deselect.
  - now apply reach_select.
  - now apply reach_remove.
  - apply reach_append; [exact IH | exact Hfresh].
Qed.

Lemma Forall_box_deselectAll (P : Box -> Prop) fs :
  Forall (fun f => P (box f)) fs -> Forall (fun f => P (box f)) (deselectAll fs).
Proof.
  unfold deselectAll. intro H. apply Forall_map. exact H.
Qed.

Lemma Forall_box_selectOnly (P : Box -> Prop) fid fs :
  Forall (fun f => P (box f)) fs -> Forall (fun f => P (box f)) (selectOnly fid fs).
Proof.
  unfold selectOnly. intro H. apply Forall_map. exact H.
Qed.

Lemma Forall_removeField (P : Field -> Prop) fid fs :
  Forall P fs -> Forall P (removeField fid fs).
Proof.
  unfold removeField. rewrite !Forall_forall. intros H f Hin.
  apply filter_In in Hin. apply H. tauto.
Qed.

(** No degenerate box ever enters the store. *)
Lemma reachableApp_boxes st :
  reachableApp numPages st ->
  Forall (fun f => tooSmall (box f) = false) (fields st).
Proof.
  induction 1 as [|st act R IH Hfresh]; [constructor|].
  destruct (fields_step st act)
    as [E|[E|[[fid E]|[[fid E]|[uuid [ev [bx [_ [T E]]]]]]]]]; rewrite E.
  - exact IH.
  - now apply (Forall_box_deselectAll (fun bx => tooSmall bx = false)).
  - now apply (Forall_box_selectOnly (fun bx => tooSmall bx = false)).
  - now apply Forall_removeField.
  - unfold appendField. apply Forall_app. split; [exact IH|].
    constructor; [exact T | constructor].
Qed.

End Session.

(** [clickedState] is reached by a press, a move, a release and a click. *)
Lemma clickedState_reachable : reachableApp (Some 3) clickedState.
Proof.
  change clickedState
    with (step (Some 3)
            (step (Some 3)
               (step (Some 3)
                  (step (Some 3) initialState (MouseDown pageDiv (eventAt (Some canvas) 0 0)))
                  (MouseMove pageDiv (eventAt (Some canvas) 50 50)))
               (MouseUp "C" (eventAt (Some canvas) 50 50)))
            (ClickField "C")).
  repeat (apply app_step; [|try exact I]).
  - apply app_initial.
  - cbn. intros [].
Defined.

(** X11.  In every state a session can reach, the identifiers of the stored
    fields are pairwise distinct, at most one field is selected, and every
    stored field has an area of at least 200: no degenerate box is ever
    committed. *)
Theorem session_store_invariant (numPages : option Z) (st : AppState) :
  reachableApp numPages st ->
  NoDup (map id (fields st))
  /\ (selectedCount (fields st) <= 1)%nat
  /\ Forall (fun f => 200 <= size (box f)) (fields st).
Proof.
  intro R.
  destruct (reachable_storeInv _ (reachableApp_store numPages st R)) as [ND C].
  split; [exact ND|]. split; [exact C|].
  pose proof (reachableApp_boxes numPages st R) as B.
  rewrite Forall_forall in *. intros f Hin.
  apply tooSmall_false. now apply B.
Qed.

Lemma session_store_invariant_witness :
  NoDup (map id (fields clickedState))
  /\ (selectedCount (fields clickedState) <= 1)%nat
  /\ Forall (fun f => 200 <= size (box f)) (fields clickedState).
Proof.
  exact (session_store_invariant (Some 3) clickedState clickedState_reachable).
Defined.

(** ** What is on the page *)

Section PageChildren.

Implicit Types (st : AppState) (fs : list Field) (v : BoxView).

Lemma deleteControls_app (l l' : list BoxView) :
  deleteControls (l ++ l') = (deleteControls l + deleteControls l')%nat.
Proof. unfold deleteControls. now rewrite filter_app, length_app. Qed.

Lemma deleteControls_previewBox st : deleteControls (previewBox st) = 0%nat.
Proof.
  unfold previewBox.
  destruct (firstPoint st) as [fp|]; [|reflexivity].
  destruct (secondPoint st) as [sp|]; [|reflexivity].
  destruct (tooSmall {| a := fp; b := sp |}); reflexivity.
Qed.

Lemma deleteControls_fieldElement fs :
  deleteControls (map fieldElement fs) = selectedCount fs.
Proof.
  unfold deleteControls, selectedCount.
  induction fs as [|f fs IH]; [reflexivity|].
  cbn [map filter]. unfold fieldElement at 1, BoxElement at 1.
  cbn [deleteView propsSelected propsDeleteSelf].
  destruct (selected f); cbn [List.length]; rewrite IH; reflexivity.
Qed.

Lemma selectedCount_fieldsOnPage pg fs :
  (selectedCount (fieldsOnPage pg fs) <= selectedCount fs)%nat.
Proof.
  unfold selectedCount, fieldsOnPage.
  induction fs as [|f fs IH]; [cbn; lia|].
  cbn [filter]. destruct (page f =? pg); cbn [filter];
    destruct (selected f); cbn [List.length]; lia.
Qed.

(** A rendered box that can be clicked or deleted is the element of a field
    of the current page. *)
Lemma in_pageChildren_field st v :
  In v (pageChildren st) ->
  viewOnClick v <> None \/ deleteView v <> None ->
  exists f, In f (fields st) /\ page f = pageNumber st /\ v = fieldElement f.
Proof.
  unfold pageChildren. intros Hin Hact. apply in_app_or in Hin.
  destruct Hin as [Hin|Hin].
  - exfalso. unfold previewBox in Hin.
    destruct (firstPoint st) as [fp|]; [|destruct Hin].
    destruct (secondPoint st) as [sp|]; [|destruct Hin].
    destruct (tooSmall {| a := fp; b := sp |}); cbn [negb] in Hin; [destruct Hin|].
    destruct Hin as [<-|[]]. cbn in Hact. destruct Hact as [H|H]; now apply H.
  - apply in_map_iff in Hin. destruct Hin as [f [<- Hf]].
    unfold fieldsOnPage in Hf. apply filter_In in Hf. destruct Hf as [Hf Hp].
    exists f. split; [exact Hf|]. split; [now apply Z.eqb_eq | reflexivity].
Qed.

End PageChildren.

(** X12.  In every state a session can reach, the page shows at most one
    delete control, and every box on it, the one being drawn included, covers
    an area of at least 200. *)
Theorem page_shows_one_delete_control (numPages : option Z) (st : AppState) :
  reachableApp numPages st ->
  (deleteControls (pageChildren st) <= 1)%nat
  /\ Forall (fun v => 200 <= viewWidth v * viewHeight v) (pageChildren st).
Proof.
  intro R. split.
  - unfold pageChildren.
    rewrite deleteControls_app, deleteControls_previewBox, deleteControls_fieldElement.
    pose proof (selectedCount_fieldsOnPage (pageNumber st) (fields st)).
    destruct (reachable_storeInv _ (reachableApp_store numPages st R)) as [_ C].
    lia.
  - unfold pageChildren. apply Forall_app. split.
    + unfold previewBox.
      destruct (firstPoint st) as [fp|]; [|constructor].
      destruct (secondPoint st) as [sp|]; [|constructor].
      destruct (tooSmall {| a := fp; b := sp |}) eqn:T; cbn [negb]; constructor;
        [|constructor].
      apply tooSmall_false in T. exact T.
    + pose proof (reachableApp_boxes numPages st R) as B.
      rewrite Forall_forall in *. intros v Hin.
      apply in_map_iff in Hin. destruct Hin as [f [<- Hf]].
      unfold fieldsOnPage in Hf. apply filter_In in Hf. destruct Hf as [Hf _].
      apply tooSmall_false. exact (B f Hf).
Qed.

Lemma page_shows_one_delete_control_witness :
  deleteControls (pageChildren clickedState) = 1%nat
  /\ (deleteControls (pageChildren clickedState) <= 1)%nat
  /\ Forall (fun v => 200 <= viewWidth v * viewHeight v) (pageChildren clickedState).
Proof.
  split; [reflexivity|].
  exact (page_shows_one_delete_control (Some 3) clickedState clickedState_reachable).
Defined.

(** X13.  In every state a session can reach, clicking a delete control that
    is on the page removes exactly one field from the store, a field of the
    current page that was selected, and leaves no field selected. *)
Theorem rendered_delete_click
    (numPages : option Z) (st : AppState) (v : BoxView) (d : DeleteView) :
  reachableApp numPages st ->
  In v (pageChildren st) ->
  deleteView v = Some d ->
  (exists f, In f (fields st) /\ page f = pageNumber st /\ selected f = true
             /\ deleteOnClick d (fields st) = removeField (id f) (fields st)
             /\ ~ In (id f) (map id (deleteOnClick d (fields st))))
  /\ S (List.length (deleteOnClick d (fields st))) = List.length (fields st)
  /\ hasSelectedField (deleteOnClick d (fields st)) = false.
Proof.
  intros R Hin Hd.
  destruct (in_pageChildren_field st v Hin) as [f [Hf [Hp ->]]].
  { right. rewrite Hd. discriminate. }
  unfold fieldElement, BoxElement in Hd.
  cbn [deleteView propsSelected propsDeleteSelf] in Hd.
  destruct (selected f) eqn:Hsel; [|discriminate Hd].
  injection Hd as <-. cbn [deleteOnClick].
  destruct (reachable_storeInv _ (reachableApp_store numPages st R)) as [ND C].
  split; [|split].
  - exists f. repeat split; auto.
    intro H. apply in_map_iff in H. destruct H as [g [E Hg]].
    apply in_removeField in Hg. tauto.
  - now apply length_removeField_present.
  - apply selectedCount_zero.
    pose proof (selectedCount_removeField_selected (fields st) f Hf Hsel). lia.
Qed.

Lemma rendered_delete_click_witness :
  In (fieldElement fieldC) (pageChildren clickedState)
  /\ deleteView (fieldElement fieldC) = Some deleteC
  /\ deleteOnClick deleteC (fields clickedState) = []
  /\ S (List.length (deleteOnClick deleteC (fields clickedState)))
     = List.length (fields clickedState)
  /\ hasSelectedField (deleteOnClick deleteC (fields clickedState)) = false.
Proof.
  split; [left; reflexivity|]. split; [reflexivity|]. split; [reflexivity|].
  exact (proj2 (rendered_delete_click (Some 3) clickedState (fieldElement fieldC) deleteC
                  clickedState_reachable (or_introl eq_refl) eq_refl)).
Defined.

(** X14.  In every state a session can reach, clicking a field that is on the
    page leaves exactly one field selected, the one clicked, and changes
    nothing else in the store. *)
Theorem rendered_field_click
    (numPages : option Z) (st : AppState) (v : BoxView) (click : Updater) :
  reachableApp numPages st ->
  In v (pageChildren st) ->
  viewOnClick v = Some click ->
  selectedCount (click (fields st)) = 1%nat
  /\ map identity (click (fields st)) = map identity (fields st)
  /\ exists f, In f (fields st) /\ page f = pageNumber st /\ v = fieldElement f
               /\ In (withSelected true f) (click (fields st)).
Proof.
  intros R Hin Hc.
  destruct (in_pageChildren_field st v Hin) as [f [Hf [Hp ->]]].
  { left. rewrite Hc. discriminate. }
  unfold fieldElement, BoxElement in Hc. cbn [viewOnClick propsOnClick] in Hc.
  injection Hc as <-.
  destruct (reachable_storeInv _ (reachableApp_store numPages st R)) as [ND C].
  split; [|split].
  - apply selectedCount_selectOnly_present; [exact ND | now apply in_map].
  - apply identity_selectOnly.
  - exists f. repeat split; auto.
    rewrite <- (String.eqb_refl (id f)) at 1. now apply in_selectOnly.
Qed.

Lemma rendered_field_click_witness :
  In (fieldElement fieldC) (pageChildren clickedState)
  /\ viewOnClick (fieldElement fieldC) = Some (selectOnly "C")
  /\ selectedCount (selectOnly "C" (fields clickedState)) = 1%nat.
Proof.
  split; [left; reflexivity|]. split; [reflexivity|].
  exact (proj1 (rendered_field_click (Some 3) clickedState (fieldElement fieldC)
                  (selectOnly "C") clickedState_reachable (or_introl eq_refl) eq_refl)).
Defined.

(** ** Gestures *)

Section Gestures.

Variable pageRef : HTMLDivElement.

Implicit Types (st : AppState) (ev : MouseEvent) (evs : list MouseEvent).

Lemma deselectAll_twice (fs : list Field) : deselectAll (deselectAll fs) = deselectAll fs.
Proof.
  unfold deselectAll. rewrite map_map. apply map_ext. intro f. reflexivity.
Qed.

Lemma pageNumber_mouseMoveListener st ev :
  pageNumber (mouseMoveListener pageRef st ev) = pageNumber st.
Proof.
  destruct st as [pn [fp|] sp fs]; unfold mouseMoveListener; cbn;
    destruct (target ev); try reflexivity.
  destruct (hasSelectedField fs); reflexivity.
Qed.

Lemma firstPoint_mouseMoves st evs :
  firstPoint (mouseMoves pageRef st evs) = firstPoint st.
Proof.
  unfold mouseMoves. revert st.
  induction evs as [|ev evs IH]; intro st; [reflexivity|].
  cbn [fold_left]. rewrite IH. apply firstPoint_mouseMoveListener.
Qed.

Lemma pageNumber_mouseMoves st evs :
  pageNumber (mouseMoves pageRef st evs) = pageNumber st.
Proof.
  unfold mouseMoves. revert st.
  induction evs as [|ev evs IH]; intro st; [reflexivity|].
  cbn [fold_left]. rewrite IH. apply pageNumber_mouseMoveListener.
Qed.

(** Moves only ever clear flags. *)
Lemma deselectAll_mouseMoves st evs :
  deselectAll (fields (mouseMoves pageRef st evs)) = deselectAll (fields st).
Proof.
  unfold mouseMoves. revert st.
  induction evs as [|ev evs IH]; intro st; [reflexivity|].
  cbn [fold_left]. rewrite IH.
  destruct (fields_mouseMoveListener pageRef st ev) as [-> | ->];
    [reflexivity | apply deselectAll_twice].
Qed.

(** A move with a resolved target during a gesture leaves nothing selected. *)
Lemma fields_mouseMoveListener_dragging st ev el fp :
  target ev = Some el -> firstPoint st = Some fp ->
  fields (mouseMoveListener pageRef st ev) = deselectAll (fields st).
Proof.
  intros Ht Hf. unfold mouseMoveListener. rewrite Ht, Hf.
  destruct (hasSelectedField (fields st)) eqn:Hsel; [reflexivity|].
  cbn. symmetry. now apply deselectAll_unselected.
Qed.

Lemma secondPoint_mouseMoveListener st ev el :
  target ev = Some el ->
  secondPoint (mouseMoveListener pageRef st ev) = mousePositionWithinContainer ev pageRef.
Proof.
  intro Ht. unfold mouseMoveListener. rewrite Ht.
  destruct (firstPoint st); [|reflexivity].
  destruct (hasSelectedField (fields st)); reflexivity.
Qed.

End Gestures.

(** X15.  A whole drag: a press with a resolved target while no gesture is
    open, any moves, a last move with a resolved target, and a release of
    any kind.  The session ends with both points cleared, on the same page
    and with no field selected; the store is the old one with every flag
    cleared, followed by one new field, of the box from the press to the last
    move, exactly when that box is not degenerate. *)
Theorem drag_gesture
    (pageRef : HTMLDivElement) (st : AppState)
    (press : MouseEvent) (moves : list MouseEvent) (lastMove release : MouseEvent)
    (uuid : string) (el1 el2 : HTMLElement) (p1 p2 : Point) :
  firstPoint st = None ->
  target press = Some el1 ->
  target lastMove = Some el2 ->
  mousePositionWithinContainer press pageRef = Some p1 ->
  mousePositionWithinContainer lastMove pageRef = Some p2 ->
  let final :=
    commitNewZone uuid
      (mouseMoveListener pageRef
         (mouseMoves pageRef (mouseDownListener pageRef st press) moves) lastMove)
      release in
  firstPoint final = None
  /\ secondPoint final = None
  /\ pageNumber final = pageNumber st
  /\ fields final
     = deselectAll (fields st)
       ++ (if tooSmall {| a := p1; b := p2 |} then []
           else [ {| page := pageNumber st; box := {| a := p1; b := p2 |};
                     id := uuid; selected := false |} ]).
Proof.
  intros Hidle Ht1 Ht2 Hp1 Hp2.
  set (s1 := mouseDownListener pageRef st press).
  assert (F1 : firstPoint s1 = Some p1 /\ fields s1 = fields st
               /\ pageNumber s1 = pageNumber st).
  { unfold s1, mouseDownListener. rewrite Ht1, Hidle, Hp1. repeat split. }
  destruct F1 as [F1 [E1 P1]].
  set (s2 := mouseMoves pageRef s1 moves).
  assert (F2 : firstPoint s2 = Some p1).
  { unfold s2. now rewrite firstPoint_mouseMoves. }
  assert (P2 : pageNumber s2 = pageNumber st).
  { unfold s2. now rewrite pageNumber_mouseMoves. }
  assert (E2 : deselectAll (fields s2) = deselectAll (fields st)).
  { unfold s2. now rewrite deselectAll_mouseMoves, E1. }
  set (s3 := mouseMoveListener pageRef s2 lastMove).
  assert (F3 : firstPoint s3 = Some p1).
  { unfold s3. now rewrite firstPoint_mouseMoveListener. }
  assert (S3 : secondPoint s3 = Some p2).
  { unfold s3. now rewrite (secondPoint_mouseMoveListener pageRef s2 lastMove el2 Ht2). }
  assert (P3 : pageNumber s3 = pageNumber st).
  { unfold s3. now rewrite pageNumber_mouseMoveListener. }
  assert (E3 : fields s3 = deselectAll (fields st)).
  { unfold s3.
    now rewrite (fields_mouseMoveListener_dragging pageRef s2 lastMove el2 p1 Ht2 F2). }
  assert (N3 : hasSelectedField (fields s3) = false).
  { rewrite E3. apply hasSelectedField_deselectAll. }
  cbv zeta. unfold commitNewZone. rewrite S3, F3. cbv zeta.
  destruct (tooSmall {| a := p1; b := p2 |}); cbn [negb].
  - rewrite N3. cbn. rewrite P3, E3, app_nil_r. repeat split.
  - cbn. rewrite P3, E3. repeat split.
Qed.

Lemma drag_gesture_witness :
  fields (commitNewZone "C"
            (mouseMoveListener pageDiv
               (mouseMoves pageDiv
                  (mouseDownListener pageDiv idleState (eventAt (Some canvas) 0 0))
                  [eventAt (Some canvas) 20 90; eventAt None 1 1])
               (eventAt (Some canvas) 50 50))
            (eventAt None 50 50))
  = [ withSelected false fieldA; fieldB;
      {| page := 2; box := boxLarge; id := "C"; selected := false |} ].
Proof.
  exact (proj2 (proj2 (proj2
           (drag_gesture pageDiv idleState (eventAt (Some canvas) 0 0)
              [eventAt (Some canvas) 20 90; eventAt None 1 1]
              (eventAt (Some canvas) 50 50) (eventAt None 50 50) "C"
              canvas canvas origin {| x := 50; y := 50 |}
              eq_refl eq_refl eq_refl eq_refl eq_refl)))).
Defined.

Section Frames.

Implicit Types (st : AppState) (ev : MouseEvent).

Lemma pageNumber_mouseDownListener pageRef st ev :
  pageNumber (mouseDownListener pageRef st ev) = pageNumber st.
Proof.
  unfold mouseDownListener. destruct (target ev), (firstPoint st); reflexivity.
Qed.

Lemma pageNumber_commitNewZone uuid st ev :
  pageNumber (commitNewZone uuid st ev) = pageNumber st.
Proof.
  unfold commitNewZone.
  destruct (secondPoint st) as [sp|]; [|reflexivity].
  destruct (firstPoint st) as [fp|]; [|reflexivity].
  cbv zeta.
  destruct (tooSmall {| a := fp; b := sp |}); cbn [negb]; [|reflexivity].
  destruct (hasSelectedField (fields st)); [|reflexivity].
  destruct (target ev) as [el|]; [|reflexivity].
  destruct (contains (classList el) "sb"); reflexivity.
Qed.

Lemma mouseDownListener_dragging pageRef st ev fp :
  firstPoint st = Some fp -> mouseDownListener pageRef st ev = st.
Proof.
  intro Hf. unfold mouseDownListener. rewrite Hf. destruct (target ev); reflexivity.
Qed.

End Frames.

(** X16.  Once a gesture is open, presses and moves cannot close it, restart
    it or touch what is stored: after any run of them the gesture still
    starts at the first press, the page is the same, and the store holds the
    same fields in the same order, flags apart. *)
Theorem presses_and_moves_keep_gesture
    (numPages : option Z) (st : AppState) (acts : list Action) (fp : Point) :
  forallb keepsGesture acts = true ->
  firstPoint st = Some fp ->
  firstPoint (fold_left (step numPages) acts st) = Some fp
  /\ pageNumber (fold_left (step numPages) acts st) = pageNumber st
  /\ map identity (fields (fold_left (step numPages) acts st))
     = map identity (fields st).
Proof.
  revert st. induction acts as [|act acts IH]; intros st Hall Hf; [auto|].
  cbn [forallb] in Hall. apply andb_prop in Hall. destruct Hall as [Hact Hall].
  cbn [fold_left].
  destruct act as [c ev|c ev|uuid ev|fid|fid| | | |]; try discriminate Hact;
    cbn [step].
  - rewrite (mouseDownListener_dragging c st ev fp Hf). now apply IH.
  - destruct (IH (mouseMoveListener c st ev) Hall) as [H1 [H2 H3]].
    { now rewrite firstPoint_mouseMoveListener. }
    rewrite H1, H2, H3, pageNumber_mouseMoveListener.
    repeat split.
    destruct (fields_mouseMoveListener c st ev) as [-> | ->];
      [reflexivity | apply identity_deselectAll].
Qed.

Lemma presses_and_moves_keep_gesture_witness :
  firstPoint
    (fold_left (step (Some 3))
       [MouseMove pageDiv (eventAt (Some canvas) 30 30);
        MouseDown pageDiv (eventAt (Some canvas) 40 40);
        MouseMove pageDiv (eventAt (Some canvas) 50 50)]
       pressedState)
  = Some origin.
Proof.
  exact (proj1 (presses_and_moves_keep_gesture (Some 3) pressedState
                  [MouseMove pageDiv (eventAt (Some canvas) 30 30);
                   MouseDown pageDiv (eventAt (Some canvas) 40 40);
                   MouseMove pageDiv (eventAt (Some canvas) 50 50)]
                  origin eq_refl eq_refl)).
Defined.

(** X17.  A press and a release with no move since the points were last
    cleared do not make a click: the release returns at its first line, so
    the gesture stays open at the pressed point, and a further press is then
    ignored. *)
Theorem click_without_move_keeps_gesture_open
    (pageRef : HTMLDivElement) (uuid : string) (st : AppState)
    (press release : MouseEvent) (el : HTMLElement) :
  firstPoint st = None ->
  secondPoint st = None ->
  target press = Some el ->
  let pressed := mouseDownListener pageRef st press in
  commitNewZone uuid pressed release = pressed
  /\ firstPoint pressed = mousePositionWithinContainer press pageRef
  /\ forall pageRef' press', mouseDownListener pageRef' pressed press' = pressed.
Proof.
  intros Hf Hs Ht. cbv zeta.
  assert (E : mouseDownListener pageRef st press
              = setFirstPoint (mousePositionWithinContainer press pageRef) st).
  { unfold mouseDownListener. now rewrite Ht, Hf. }
  rewrite E. split; [|split].
  - unfold commitNewZone. cbn. rewrite Hs. reflexivity.
  - reflexivity.
  - intros c' press'. unfold mouseDownListener. cbn.
    destruct (target press'); reflexivity.
Qed.

Lemma click_without_move_keeps_gesture_open_witness :
  commitNewZone "C" (mouseDownListener pageDiv clickedState (eventAt (Some canvas) 7 7))
    (eventAt (Some canvas) 7 7)
  = {| pageNumber := 1; firstPoint := Some {| x := 7; y := 7 |};
       secondPoint := None; fields := [fieldC] |}.
Proof.
  exact (proj1 (click_without_move_keeps_gesture_open pageDiv "C" clickedState
                  (eventAt (Some canvas) 7 7) (eventAt (Some canvas) 7 7) canvas
                  eq_refl eq_refl eq_refl)).
Defined.

(** X18.  A commit shows on the current page only: the fields rendered for
    the current page are the ones rendered before followed by the new field,
    and the fields rendered for any other page are the same as before. *)
Theorem commit_on_current_page
    (uuid : string) (st : AppState) (ev : MouseEvent) (fp sp : Point) (pg : Z) :
  firstPoint st = Some fp ->
  secondPoint st = Some sp ->
  tooSmall {| a := fp; b := sp |} = false ->
  fieldsOnPage pg (fields (commitNewZone uuid st ev))
  = fieldsOnPage pg (fields st)
    ++ (if pg =? pageNumber st
        then [ {| page := pageNumber st; box := {| a := fp; b := sp |};
                  id := uuid; selected := false |} ]
        else []).
Proof.
  intros Hf Hs T. unfold commitNewZone. rewrite Hs, Hf. cbv zeta. rewrite T.
  cbn [negb fields setSecondPoint setFirstPoint setFields].
  unfold appendField, fieldsOnPage. rewrite filter_app. cbn [filter page].
  rewrite (Z.eqb_sym (pageNumber st) pg). destruct (pg =? pageNumber st); reflexivity.
Qed.

Lemma commit_on_current_page_witness :
  fieldsOnPage 2 (fields (commitNewZone "C" largeDrag (eventAt (Some canvas) 50 50)))
  = [ fieldB; {| page := 2; box := boxLarge; id := "C"; selected := false |} ]
  /\ fieldsOnPage 1 (fields (commitNewZone "C" largeDrag (eventAt (Some canvas) 50 50)))
     = [ fieldA ].
Proof.
  split.
  - exact (commit_on_current_page "C" largeDrag (eventAt (Some canvas) 50 50)
             origin {| x := 50; y := 50 |} 2 eq_refl eq_refl eq_refl).
  - exact (commit_on_current_page "C" largeDrag (eventAt (Some canvas) 50 50)
             origin {| x := 50; y := 50 |} 1 eq_refl eq_refl eq_refl).
Defined.

(** ** Navigation *)

(** X19.  From the moment the document has loaded with [n] pages and the
    current page and the pages of the stored fields lie between 1 and [n],
    they stay there whatever happens next.  (Before loading, [numPages] is
    undefined and the next control is not held back: see X20.) *)
Theorem page_number_stays_in_range (n : Z) (st : AppState) (acts : list Action) :
  1 <= pageNumber st <= n ->
  Forall (fun f => 1 <= page f <= n) (fields st) ->
  1 <= pageNumber (fold_left (step (Some n)) acts st) <= n
  /\ Forall (fun f => 1 <= page f <= n) (fields (fold_left (step (Some n)) acts st)).
Proof.
  revert st. induction acts as [|act acts IH]; intros st Hp Hfs; [auto|].
  cbn [fold_left]. apply IH.
  - destruct act as [c ev|c ev|uuid ev|fid|fid| | | |]; cbn [step].
    + now rewrite pageNumber_mouseDownListener.
    + now rewrite pageNumber_mouseMoveListener.
    + now rewrite pageNumber_commitNewZone.
    + exact Hp.
    + exact Hp.
    + cbn. unfold firstPage. lia.
    + cbn. unfold previousPage. destruct (Z.eqb_spec (pageNumber st) 1); lia.
    + cbn. unfold nextPage. destruct (Z.eqb_spec (pageNumber st) n); lia.
    + exact Hp.
  - destruct (fields_step (Some n) st act)
      as [E|[E|[[fid E]|[[fid E]|[uuid [ev [bx [_ [_ E]]]]]]]]]; rewrite E.
    + exact Hfs.
    + unfold deselectAll. apply Forall_map. exact Hfs.
    + unfold selectOnly. apply Forall_map. exact Hfs.
    + now apply Forall_removeField.
    + unfold appendField. apply Forall_app. split; [exact Hfs|].
      constructor; [exact Hp | constructor].
Qed.

Lemma page_number_stays_in_range_witness :
  pageNumber
    (fold_left (step (Some 3))
       [ToNextPage; ToNextPage; ToNextPage; ToNextPage;
        MouseDown pageDiv (eventAt (Some canvas) 0 0);
        MouseMove pageDiv (eventAt (Some canvas) 50 50);
        MouseUp "D" (eventAt (Some canvas) 50 50);
        ToPreviousPage]
       clickedState)
  = 2
  /\ Forall (fun f => 1 <= page f <= 3)
       (fields
          (fold_left (step (Some 3))
             [ToNextPage; ToNextPage; ToNextPage; ToNextPage;
              MouseDown pageDiv (eventAt (Some canvas) 0 0);
              MouseMove pageDiv (eventAt (Some canvas) 50 50);
              MouseUp "D" (eventAt (Some canvas) 50 50);
              ToPreviousPage]
             clickedState)).
Proof.
  split; [reflexivity|].
  assert (Hp : 1 <= pageNumber clickedState <= 3) by (cbn; lia).
  assert (Hfs : Forall (fun f => 1 <= page f <= 3) (fields clickedState)).
  { repeat constructor; cbn; lia. }
  exact (proj2 (page_number_stays_in_range 3 clickedState
                  [ToNextPage; ToNextPage; ToNextPage; ToNextPage;
                   MouseDown pageDiv (eventAt (Some canvas) 0 0);
                   MouseMove pageDiv (eventAt (Some canvas) 50 50);
                   MouseUp "D" (eventAt (Some canvas) 50 50);
                   ToPreviousPage] Hp Hfs)).
Defined.

(** X20.  The navigation controls: on a document of [n] pages, next then
    previous comes back to the same page from any page but the last, and
    previous then next from any page but the first; previous stops at page 1
    and next stops at page [n]; before the document has loaded next always
    advances; and the last-page control leaves the page where it is. *)
Theorem navigation_controls (n p : Z) :
  (1 <= p < n -> previousPage (nextPage (Some n) p) = p)
  /\ (1 < p <= n -> nextPage (Some n) (previousPage p) = p)
  /\ previousPage 1 = 1
  /\ nextPage (Some n) n = n
  /\ nextPage None p = p + 1
  /\ lastPage p = p.
Proof.
  unfold previousPage, nextPage, lastPage.
  repeat split.
  - intros H. destruct (Z.eqb_spec p n); [lia|].
    destruct (Z.eqb_spec (p + 1) 1); lia.
  - intros H. destruct (Z.eqb_spec p 1); [lia|].
    destruct (Z.eqb_spec (p - 1) n); lia.
  - now rewrite Z.eqb_refl.
Qed.

(** ** A click on the page *)

(** X21.  A click away from any delete control dismisses the selection.
    While no gesture is open the pointer moves over the page and is then
    pressed, each position being read against the container's rectangle at
    that event; when the box between the two local points is degenerate (as
    it is when they are the same point) and the release falls on an element
    without the class [sb], nothing is committed, the gesture is closed and
    every field is left deselected. *)
Theorem click_dismisses_selection
    (hoverRef pressRef : HTMLDivElement) (uuid : string) (st : AppState)
    (hover press release : MouseEvent) (el1 el2 el3 : HTMLElement)
    (p1 p2 : Point) :
  firstPoint st = None ->
  target hover = Some el1 ->
  target press = Some el2 ->
  mousePositionWithinContainer hover hoverRef = Some p2 ->
  mousePositionWithinContainer press pressRef = Some p1 ->
  tooSmall {| a := p1; b := p2 |} = true ->
  target release = Some el3 ->
  contains (classList el3) "sb" = false ->
  let final :=
    commitNewZone uuid
      (mouseDownListener pressRef (mouseMoveListener hoverRef st hover) press) release in
  fields final = deselectAll (fields st)
  /\ firstPoint final = None
  /\ secondPoint final = None.
Proof.
  intros Hf Ht1 Ht2 Hp2 Hp1 T Ht3 Hsb. cbv zeta.
  unfold mouseMoveListener. rewrite Ht1, Hf, Hp2.
  unfold mouseDownListener. cbn [firstPoint setSecondPoint]. rewrite Ht2, Hf, Hp1.
  unfold commitNewZone.
  cbn [secondPoint firstPoint setFirstPoint setSecondPoint fields pageNumber].
  cbv zeta. rewrite T. cbn [negb]. rewrite Ht3, Hsb. cbn [negb].
  destruct (hasSelectedField (fields st)) eqn:Hsel; cbn; repeat split.
  symmetry. now apply deselectAll_unselected.
Qed.

Lemma click_dismisses_selection_witness :
  fields (commitNewZone "C"
            (mouseDownListener
               {| getBoundingClientRect := {| left := 10; top := 20 |} |}
               (mouseMoveListener pageDiv clickedState (eventAt (Some canvas) 80 80))
               (eventAt (Some canvas) 85 95))
            (eventAt (Some canvas) 85 95))
  = [withSelected false fieldC].
Proof.
  exact (proj1 (click_dismisses_selection pageDiv
                  {| getBoundingClientRect := {| left := 10; top := 20 |} |}
                  "C" clickedState
                  (eventAt (Some canvas) 80 80) (eventAt (Some canvas) 85 95)
                  (eventAt (Some canvas) 85 95) canvas canvas canvas
                  {| x := 75; y := 75 |} {| x := 80; y := 80 |}
                  eq_refl eq_refl eq_refl eq_refl eq_refl eq_refl eq_refl eq_refl)).
Defined.
